(** * Kafka-s3-connector: the bucket provisioner and the bucket inspector

    A shallow embedding of [create_bucket.py] and [check_s3_data.py].

    Both scripts are straight-line sequences of calls to an S3 client with
    [print] in between, wrapped in [try]/[except].  They are embedded in a
    small monad that threads the state of the object store, records every
    store call and every [print] in a trace, and carries Python exceptions.
    The object store, [bytes.decode], [json.loads] and [json.dumps] are not
    code of the repository: the store is an interface ([S3Client]) and the
    three library functions are an interface too ([PyRuntime]); the theorems
    hold for every instance.  A reference in-memory store and the library
    functions on a fragment of JSON are given to run the scripts on concrete
    buckets. *)

From Stdlib Require Import String List ZArith Lia Ascii DecimalString Bool Arith.
From Stdlib.Strings Require Import Byte.
Import ListNotations.
Open Scope string_scope.
Set Warnings "-register-all".

(** ** Python values and exceptions *)

(** The values [json.loads] returns: [None], [bool], [int], [float], [str],
    [list] and [dict].  A float is carried by its [repr], which is what
    [json.dumps] prints for it; a dict by its items in insertion order. *)
Inductive json : Type :=
| JNull
| JBool (b : bool)
| JInt (z : Z)
| JFloat (repr : string)
| JStr (s : string)
| JList (items : list json)
| JDict (items : list (string * json)).

(** The exceptions the scripts can meet.  [ClientError] is botocore's: it
    carries [e.response['Error']['Code']] and the text [str(e)].
    [OtherException] stands for every other exception, by the name of its
    class: what the SDK raises that is not a [ClientError] (a connection
    failure, say), and what [json.loads] raises that is not a
    [JSONDecodeError] ([ValueError] on an integer literal of more than 4300
    digits, [RecursionError] on deep nesting). *)
Inductive exception : Type :=
| ClientError (Code : string) (str : string)
| JSONDecodeError
| UnicodeDecodeError
| OtherException (name : string).

Inductive result (A : Type) : Type :=
| Ok (a : A)
| Raised (e : exception).
Arguments Ok {A} a.
Arguments Raised {A} e.

(** ** The object store client *)

Record Bucket : Type := { Name : string }.

Record Object : Type := { Key : string; Size : Z }.

(** The calls of the boto3 client that the scripts use. *)
Inductive s3_op : Type :=
| create_bucket (Bucket : string)
| list_buckets
| list_objects_v2 (Bucket : string)
| get_object (Bucket : string) (Key : string).

(** What each call answers: [create_bucket]'s answer is not looked at,
    [list_buckets] answers [Buckets], [list_objects_v2] answers [Contents]
    (a key that is absent from the answer when the bucket is empty), and
    [get_object] answers the bytes that [Body.read()] gives. *)
Definition output (op : s3_op) : Type :=
  match op with
  | create_bucket _ => unit
  | list_buckets => list Bucket
  | list_objects_v2 _ => option (list Object)
  | get_object _ _ => list byte
  end.

(** A store with states [W]: a call answers and moves the store on. *)
Class S3Client (W : Type) : Type :=
  { respond : forall op : s3_op, W -> result (output op) * W }.

(** The Python library functions the inspector calls.  [decode] fails with
    [UnicodeDecodeError] only; [json.loads] returns a value or raises, a
    [JSONDecodeError] or something else. *)
Class PyRuntime : Type :=
  { decode_utf8 : list byte -> option string;
    json_loads : string -> result json;
    json_dumps_indent2 : json -> string }.

(** ** Traces *)

(** What a run does that can be seen from outside: store calls (with the
    exception the call raised, if any) and printed lines. *)
Inductive event : Type :=
| Call (op : s3_op) (raised : option exception)
| Print (text : string).

Definition raised_by {A : Type} (r : result A) : option exception :=
  match r with
  | Ok _ => None
  | Raised e => Some e
  end.

Definition is_call (ev : event) : bool :=
  match ev with
  | Call _ _ => true
  | Print _ => false
  end.

Definition is_failed_call (ev : event) : bool :=
  match ev with
  | Call _ (Some _) => true
  | _ => false
  end.

(** The calls that only read the store. *)
Definition read_only (op : s3_op) : bool :=
  match op with
  | create_bucket _ => false
  | list_buckets => true
  | list_objects_v2 _ => true
  | get_object _ _ => true
  end.

Definition read_only_event (ev : event) : bool :=
  match ev with
  | Call op _ => read_only op
  | Print _ => true
  end.

Definition calls (t : list event) : list event := filter is_call t.

(** ** The monad of the scripts *)

Section Script.

Context {W : Type}.

(** A computation runs from a store state and gives its trace, its value or
    the exception it raised, and the store state it leaves. *)
Definition run_result (A : Type) : Type := (list event * result A * W)%type.

Definition script (A : Type) : Type := W -> run_result A.

Definition trace {A : Type} (r : run_result A) : list event := fst (fst r).
Definition outcome {A : Type} (r : run_result A) : result A := snd (fst r).
Definition final {A : Type} (r : run_result A) : W := snd r.

(** [after t r]: the run [r] with the events [t] in front. *)
Definition after {A : Type} (t : list event) (r : run_result A) : run_result A :=
  ((t ++ trace r)%list, outcome r, final r).

Definition ret {A : Type} (a : A) : script A :=
  fun w => ([], Ok a, w).

Definition raise {A : Type} (e : exception) : script A :=
  fun w => ([], Raised e, w).

Definition bind {A B : Type} (m : script A) (k : A -> script B) : script B :=
  fun w =>
    match m w with
    | (t, Ok a, w') => after t (k a w')
    | (t, Raised e, w') => (t, Raised e, w')
    end.

Definition print (text : string) : script unit :=
  fun w => ([Print text], Ok tt, w).

(** [try: body except: handler]; the handler answers [None] for the
    exceptions its [except] clause does not name, and they go on. *)
Definition try_except {A : Type} (body : script A)
    (handler : exception -> option (script A)) : script A :=
  fun w =>
    match body w with
    | (t, Ok a, w') => (t, Ok a, w')
    | (t, Raised e, w') =>
        match handler e with
        | Some h => after t (h w')
        | None => (t, Raised e, w')
        end
    end.

Definition of_option {A : Type} (e : exception) (o : option A) : script A :=
  match o with
  | Some a => ret a
  | None => raise e
  end.

Fixpoint for_each {A : Type} (xs : list A) (body : A -> script unit) : script unit :=
  match xs with
  | [] => ret tt
  | x :: xs' => bind (body x) (fun _ => for_each xs' body)
  end.

Context {s3_client : S3Client W}.

Definition call (op : s3_op) : script (output op) :=
  fun w =>
    let (r, w') := respond op w in
    ([Call op (raised_by r)], r, w').

End Script.

Notation "x <- m ;; k" := (bind m (fun x => k))
  (at level 61, m at next level, right associativity).
Notation "m ;; k" := (bind m (fun _ => k))
  (at level 61, right associativity).

(** ** Formatting *)

(** [str] of a Python [int], as an f-string prints it. *)
Definition str_int (z : Z) : string := NilZero.string_of_int (Z.to_int z).

Definition str_len (n : nat) : string := str_int (Z.of_nat n).

(** [c * n] for a one-character string. *)
Fixpoint repeat_char (c : ascii) (n : nat) : string :=
  match n with
  | O => EmptyString
  | S n' => String c (repeat_char c n')
  end.

Definition newline : string := String "010" EmptyString.

(** ["=" * 80] *)
Definition rule : string := repeat_char "=" 80.

(** ** create_bucket.py *)

Section Scripts.

Context {W : Type} {s3_client : S3Client W} {py : PyRuntime}.

Definition bucket_name : string := "test-data-lake".

Definition created_message : string :=
  "✅ Successfully created bucket: " ++ bucket_name.

Definition available_header : string := "📋 Available buckets:".

Definition bucket_line (bucket : Bucket) : string := "  - " ++ Name bucket.

Definition already_exists_message : string :=
  "✅ Bucket " ++ bucket_name ++ " already exists".

Definition create_error_message (e_str : string) : string :=
  "❌ Error creating bucket: " ++ e_str.

(** The [except ClientError as e] clause of [create_s3_bucket]. *)
Definition create_handler (e : exception) : option (script (W := W) unit) :=
  match e with
  | ClientError Code e_str =>
      Some (if String.eqb Code "BucketAlreadyOwnedByYou"
            then print already_exists_message
            else print (create_error_message e_str))
  | _ => None
  end.

(** The body of the [try] of [create_s3_bucket]. *)
Definition create_body : script unit :=
  call (create_bucket bucket_name) ;;
  print created_message ;;
  buckets <- call list_buckets ;;
  print available_header ;;
  for_each buckets (fun bucket => print (bucket_line bucket)).

Definition create_s3_bucket : script unit :=
  try_except create_body create_handler.

(** ** check_s3_data.py *)

Definition files_header : string := "📋 Files in S3 bucket:".

Definition file_line (obj : Object) : string :=
  "  📄 " ++ Key obj ++ " (size: " ++ str_int (Size obj) ++ " bytes)".

Definition content_header (key : string) : string :=
  newline ++ "🔍 Content of " ++ key ++ ":".

Definition structure_line : string := "📊 Structure: JSON Array".

Definition records_line (n : nat) : string :=
  "📊 Number of records: " ++ str_len n.

Definition sample_header : string := "📄 Sample record:".

Definition not_json_message : string :=
  "⚠️  Not valid JSON, showing raw content:".

Definition closing_rule : string := newline ++ rule.

Definition access_error_message (e_str : string) : string :=
  "❌ Error accessing S3: " ++ e_str.

(** [objects.get('Contents', [])] *)
Definition get_Contents (objects : option (list Object)) : list Object :=
  match objects with
  | Some contents => contents
  | None => []
  end.

(** [isinstance(data, list)] *)
Definition isinstance_list (data : json) : bool :=
  match data with
  | JList _ => true
  | _ => false
  end.

(** [len(data)], which the script evaluates on lists only. *)
Definition len (data : json) : nat :=
  match data with
  | JList items => List.length items
  | _ => 0
  end.

(** [data[0]], which the script evaluates on non-empty lists only. *)
Definition first_item (data : json) : result json :=
  match data with
  | JList (first :: _) => Ok first
  | JList [] => Raised (OtherException "IndexError")
  | _ => Raised (OtherException "TypeError")
  end.

Definition of_result {A : Type} (r : result A) : script (W := W) A :=
  match r with
  | Ok a => ret a
  | Raised e => raise e
  end.

(** [len(data) if isinstance(data, list) else 1] *)
Definition number_of_records (data : json) : nat :=
  if isinstance_list data then len data else 1.

(** The body of the inner [try]: the lines after [json.loads]. *)
Definition show_json (data : json) : script (W := W) unit :=
  print structure_line ;;
  print (records_line (number_of_records data)) ;;
  if isinstance_list data && (0 <? len data)%nat
  then
    print sample_header ;;
    first <- of_result (first_item data) ;;
    print (json_dumps_indent2 first)
  else
    print (json_dumps_indent2 data).

(** The [except json.JSONDecodeError] clause. *)
Definition json_handler (content : string) (e : exception)
  : option (script (W := W) unit) :=
  match e with
  | JSONDecodeError => Some (print not_json_message ;; print content)
  | _ => None
  end.

(** The first loop of [check_s3_data]. *)
Definition enumerate (contents : list Object) : script (W := W) unit :=
  for_each contents (fun obj => print (file_line obj)).

(** The body of the second loop. *)
Definition inspect (obj : Object) : script unit :=
  let key := Key obj in
  print (content_header key) ;;
  print rule ;;
  body <- call (get_object bucket_name key) ;;
  content <- of_option UnicodeDecodeError (decode_utf8 body) ;;
  try_except
    (data <- of_result (json_loads content) ;;
     show_json data)
    (json_handler content).

(** The outer [except ClientError as e] clause of [check_s3_data]. *)
Definition access_handler (e : exception) : option (script (W := W) unit) :=
  match e with
  | ClientError _ e_str => Some (print (access_error_message e_str))
  | _ => None
  end.

(** The body of the outer [try] of [check_s3_data]. *)
Definition check_body : script unit :=
  objects <- call (list_objects_v2 bucket_name) ;;
  print files_header ;;
  enumerate (get_Contents objects) ;;
  for_each (get_Contents objects) inspect ;;
  print closing_rule.

Definition check_s3_data : script unit :=
  try_except check_body access_handler.

End Scripts.

(** ** The Python library on a fragment

    To run the inspector on concrete objects: [bytes.decode('utf-8')] in
    full, and [json.loads] and [json.dumps(..., indent=2)] on the JSON texts
    made of [null], [true], [false], integers, strings of printable ASCII
    characters without escapes, arrays and objects.  [loads] raises what
    CPython 3.11 raises on such a text, read from the left:
    [JSONDecodeError] on a syntax error, [ValueError] on an integer of more
    than 4300 digits, [RecursionError] past the nesting the interpreter
    allows.  On a text outside this fragment (floats, [NaN] and
    [Infinity], escapes, non-ASCII strings) [loads] raises
    [JSONDecodeError] though Python may accept it; the theorems hold for
    every [PyRuntime], and this one is only run on texts of the
    fragment. *)

Module Utf8.

Definition between (lo hi : N) (b : byte) : bool :=
  (lo <=? Byte.to_N b)%N && (Byte.to_N b <=? hi)%N.

Definition continuation (b : byte) : bool := between 0x80 0xBF b.

(** The second byte of a three-byte sequence: no overlong form after
    [E0], no surrogate after [ED]. *)
Definition second_of_three (b0 b1 : byte) : bool :=
  if between 0xE0 0xE0 b0 then between 0xA0 0xBF b1
  else if between 0xED 0xED b0 then between 0x80 0x9F b1
  else continuation b1.

(** The second byte of a four-byte sequence: no overlong form after
    [F0], nothing above U+10FFFF after [F4]. *)
Definition second_of_four (b0 b1 : byte) : bool :=
  if between 0xF0 0xF0 b0 then between 0x90 0xBF b1
  else if between 0xF4 0xF4 b0 then between 0x80 0x8F b1
  else continuation b1.

Fixpoint well_formed (bs : list byte) : bool :=
  match bs with
  | [] => true
  | b0 :: r0 =>
      if between 0x00 0x7F b0 then well_formed r0
      else
        match r0 with
        | [] => false
        | b1 :: r1 =>
            if between 0xC2 0xDF b0 then continuation b1 && well_formed r1
            else
              match r1 with
              | [] => false
              | b2 :: r2 =>
                  if between 0xE0 0xEF b0
                  then second_of_three b0 b1 && continuation b2 && well_formed r2
                  else
                    match r2 with
                    | [] => false
                    | b3 :: r3 =>
                        between 0xF0 0xF4 b0 && second_of_four b0 b1
                        && continuation b2 && continuation b3 && well_formed r3
                    end
              end
        end
  end.

(** Text is kept in its UTF-8 encoding, so decoding is validation. *)
Definition decode (bs : list byte) : option string :=
  if well_formed bs then Some (string_of_list_byte bs) else None.

End Utf8.

Module JsonFragment.

Definition quote : ascii := "034".
Definition backslash : ascii := "092".

Definition is_ws (c : ascii) : bool :=
  (c =? " ")%char || (c =? "009")%char || (c =? "010")%char || (c =? "013")%char.

Fixpoint skip_ws (s : string) : string :=
  match s with
  | String c r => if is_ws c then skip_ws r else s
  | EmptyString => s
  end.

Definition is_digit (c : ascii) : bool :=
  (48 <=? nat_of_ascii c)%nat && (nat_of_ascii c <=? 57)%nat.

Definition digit_value (c : ascii) : Z := Z.of_nat (nat_of_ascii c - 48).

(** The digits at the head of a text: their value, how many they are, and
    the text after them. *)
Fixpoint scan_digits (acc : Z) (count : nat) (s : string) : Z * nat * string :=
  match s with
  | String c r =>
      if is_digit c then scan_digits (10 * acc + digit_value c) (S count) r
      else (acc, count, s)
  | EmptyString => (acc, count, s)
  end.

(** [0|[1-9][0-9]*] *)
Definition scan_natural (s : string) : option (Z * nat * string) :=
  match s with
  | String c r =>
      if (c =? "0")%char then Some (0%Z, 1, r)
      else if is_digit c then Some (scan_digits (digit_value c) 1 r)
      else None
  | EmptyString => None
  end.

Definition starts_with_digit (s : string) : bool :=
  match s with
  | String c _ => is_digit c
  | EmptyString => false
  end.

(** The digits are followed by a fraction [\.\d+] or an exponent
    [[eE][-+]?\d+]: the number is a float. *)
Definition float_follows (s : string) : bool :=
  match s with
  | String c r =>
      if (c =? ".")%char then starts_with_digit r
      else if (c =? "e")%char || (c =? "E")%char then
        match r with
        | String c' r' =>
            if (c' =? "-")%char || (c' =? "+")%char then starts_with_digit r'
            else is_digit c'
        | EmptyString => false
        end
      else false
  | EmptyString => false
  end.

(** [sys.int_max_str_digits], the most digits [int] converts from text. *)
Definition max_str_digits : nat := 4300.

(** The deepest nesting of arrays and objects [json.loads] goes into when
    the script calls it: CPython's default recursion limit of 1000, less
    the frames in use at that point. *)
Definition nesting_limit : nat := 994.

Definition value_error : exception := OtherException "ValueError".

Definition recursion_error : exception := OtherException "RecursionError".

(** An integer literal; the conversion of its digits raises [ValueError]
    when they are more than [max_str_digits]. *)
Definition scan_int (s : string) : result (json * string) :=
  let '(negative, digits) :=
    match s with
    | String c r => if (c =? "-")%char then (true, r) else (false, s)
    | EmptyString => (false, s)
    end in
  match scan_natural digits with
  | Some (n, count, r) =>
      if float_follows r then Raised JSONDecodeError
      else if (max_str_digits <? count)%nat then Raised value_error
      else Ok (JInt (if negative then - n else n)%Z, r)
  | None => Raised JSONDecodeError
  end.

(** A character that stands for itself in a string of the fragment. *)
Definition plain (c : ascii) : bool :=
  (32 <=? nat_of_ascii c)%nat && (nat_of_ascii c <=? 126)%nat
  && negb (c =? quote)%char && negb (c =? backslash)%char.

(** The rest of a string after its opening quote. *)
Fixpoint scan_string (s : string) : option (string * string) :=
  match s with
  | EmptyString => None
  | String c r =>
      if (c =? quote)%char then Some (EmptyString, r)
      else if plain c then
        match scan_string r with
        | Some (x, r') => Some (String c x, r')
        | None => None
        end
      else None
  end.

(** [d[k] = v] on a dict kept as its items in insertion order. *)
Fixpoint dict_set (k : string) (v : json) (d : list (string * json))
  : list (string * json) :=
  match d with
  | [] => [(k, v)]
  | (k', v') :: d' =>
      if String.eqb k k' then (k, v) :: d' else (k', v') :: dict_set k v d'
  end.

Definition dict_of (pairs : list (string * json)) : list (string * json) :=
  fold_left (fun d kv => dict_set (fst kv) (snd kv) d) pairs [].

Definition keyword (word : string) (v : json) (s : string)
  : result (json * string) :=
  if String.prefix word s
  then Ok (v, String.substring (String.length word)
                (String.length s - String.length word) s)
  else Raised JSONDecodeError.

(** The parsers take a text whose leading whitespace is gone and give the
    value with the text left after it, or the exception met first, reading
    from the left; [depth] counts the arrays and objects that are open. *)
Fixpoint parse_value (fuel depth : nat) (s : string) : result (json * string) :=
  match fuel with
  | O => Raised JSONDecodeError
  | S fuel' =>
      match s with
      | EmptyString => Raised JSONDecodeError
      | String c r =>
          if (c =? "[")%char then
            if (nesting_limit <=? depth)%nat then Raised recursion_error
            else
              match skip_ws r with
              | String "]" r' => Ok (JList [], r')
              | r' =>
                  match parse_items fuel' (S depth) r' with
                  | Ok (xs, r'') => Ok (JList xs, r'')
                  | Raised e => Raised e
                  end
              end
          else if (c =? "{")%char then
            if (nesting_limit <=? depth)%nat then Raised recursion_error
            else
              match skip_ws r with
              | String "}" r' => Ok (JDict [], r')
              | r' =>
                  match parse_members fuel' (S depth) r' with
                  | Ok (kvs, r'') => Ok (JDict (dict_of kvs), r'')
                  | Raised e => Raised e
                  end
              end
          else if (c =? quote)%char then
            match scan_string r with
            | Some (x, r') => Ok (JStr x, r')
            | None => Raised JSONDecodeError
            end
          else if (c =? "n")%char then keyword "null" JNull s
          else if (c =? "t")%char then keyword "true" (JBool true) s
          else if (c =? "f")%char then keyword "false" (JBool false) s
          else scan_int s
      end
  end

with parse_items (fuel depth : nat) (s : string) : result (list json * string) :=
  match fuel with
  | O => Raised JSONDecodeError
  | S fuel' =>
      match parse_value fuel' depth s with
      | Ok (v, r) =>
          match skip_ws r with
          | String "]" r' => Ok ([v], r')
          | String "," r' =>
              match parse_items fuel' depth (skip_ws r') with
              | Ok (vs, r'') => Ok (v :: vs, r'')
              | Raised e => Raised e
              end
          | _ => Raised JSONDecodeError
          end
      | Raised e => Raised e
      end
  end

with parse_members (fuel depth : nat) (s : string)
  : result (list (string * json) * string) :=
  match fuel with
  | O => Raised JSONDecodeError
  | S fuel' =>
      match s with
      | String c r =>
          if (c =? quote)%char then
            match scan_string r with
            | Some (k, r1) =>
                match skip_ws r1 with
                | String ":" r2 =>
                    match parse_value fuel' depth (skip_ws r2) with
                    | Ok (v, r3) =>
                        match skip_ws r3 with
                        | String "}" r4 => Ok ([(k, v)], r4)
                        | String "," r4 =>
                            match parse_members fuel' depth (skip_ws r4) with
                            | Ok (kvs, r5) => Ok ((k, v) :: kvs, r5)
                            | Raised e => Raised e
                            end
                        | _ => Raised JSONDecodeError
                        end
                    | Raised e => Raised e
                    end
                | _ => Raised JSONDecodeError
                end
            | None => Raised JSONDecodeError
            end
          else Raised JSONDecodeError
      | EmptyString => Raised JSONDecodeError
      end
  end.

(** [json.loads]: one value, whitespace around it, nothing else. *)
Definition loads (s : string) : result json :=
  match parse_value (2 * String.length s + 2) 0 (skip_ws s) with
  | Ok (v, r) =>
      match skip_ws r with
      | EmptyString => Ok v
      | _ => Raised JSONDecodeError
      end
  | Raised e => Raised e
  end.

Fixpoint escape (s : string) : string :=
  match s with
  | EmptyString => EmptyString
  | String c r =>
      if (c =? quote)%char || (c =? backslash)%char
      then String backslash (String c (escape r))
      else String c (escape r)
  end.

Definition encode_string (s : string) : string :=
  String quote (escape s ++ String quote EmptyString).

(** A line break and the indentation of a nesting level, two spaces each. *)
Definition newline_indent (level : nat) : string :=
  newline ++ repeat_char " " (2 * level).

Fixpoint dumps_at (level : nat) (v : json) {struct v} : string :=
  match v with
  | JNull => "null"
  | JBool true => "true"
  | JBool false => "false"
  | JInt z => str_int z
  | JFloat repr => repr
  | JStr s => encode_string s
  | JList [] => "[]"
  | JList (x :: xs) =>
      "[" ++ newline_indent (S level) ++ dumps_at (S level) x
      ++ (fix rest (l : list json) : string :=
            match l with
            | [] => EmptyString
            | y :: l' =>
                "," ++ newline_indent (S level) ++ dumps_at (S level) y ++ rest l'
            end) xs
      ++ newline_indent level ++ "]"
  | JDict [] => "{}"
  | JDict ((k, x) :: kvs) =>
      "{" ++ newline_indent (S level) ++ encode_string k ++ ": "
      ++ dumps_at (S level) x
      ++ (fix rest (l : list (string * json)) : string :=
            match l with
            | [] => EmptyString
            | (k', y) :: l' =>
                "," ++ newline_indent (S level) ++ encode_string k' ++ ": "
                ++ dumps_at (S level) y ++ rest l'
            end) kvs
      ++ newline_indent level ++ "}"
  end.

(** [json.dumps(v, indent=2)] *)
Definition dumps (v : json) : string := dumps_at 0 v.

(** A text with every apostrophe turned into a double quote, to write the
    JSON texts of the examples. *)
Fixpoint dq (s : string) : string :=
  match s with
  | EmptyString => EmptyString
  | String c r => String (if (c =? "'")%char then quote else c) (dq r)
  end.

End JsonFragment.

Definition python : PyRuntime :=
  {| decode_utf8 := Utf8.decode;
     json_loads := JsonFragment.loads;
     json_dumps_indent2 := JsonFragment.dumps |}.

(** ** A reference store

    An in-memory store with the behaviour of the MinIO server the scripts
    talk to, for running them: buckets in creation order, each with its
    objects in the order the store lists them. *)

Module MemStore.

Definition objects : Type := list (string * list byte).

Definition store : Type := list (string * objects).

Fixpoint lookup {A : Type} (k : string) (l : list (string * A)) : option A :=
  match l with
  | [] => None
  | (k', a) :: l' => if String.eqb k k' then Some a else lookup k l'
  end.

(** A [ClientError] with the text botocore gives it. *)
Definition client_error (code operation message : string) : exception :=
  ClientError code
    ("An error occurred (" ++ code ++ ") when calling the " ++ operation
     ++ " operation: " ++ message).

Definition already_owned : exception :=
  client_error "BucketAlreadyOwnedByYou" "CreateBucket"
    "Your previous request to create the named bucket succeeded and you already own it.".

Definition no_such_bucket (operation : string) : exception :=
  client_error "NoSuchBucket" operation "The specified bucket does not exist".

Definition no_such_key : exception :=
  client_error "NoSuchKey" "GetObject" "The specified key does not exist.".

Definition entry (o : string * list byte) : Object :=
  {| Key := fst o; Size := Z.of_nat (List.length (snd o)) |}.

Definition answer (op : s3_op) (w : store) : result (output op) * store :=
  match op return result (output op) * store with
  | create_bucket b =>
      match lookup b w with
      | Some _ => (Raised already_owned, w)
      | None => (Ok tt, (w ++ [(b, [])])%list)
      end
  | list_buckets => (Ok (map (fun p => {| Name := fst p |}) w), w)
  | list_objects_v2 b =>
      match lookup b w with
      | Some [] => (Ok None, w)
      | Some objs => (Ok (Some (map entry objs)), w)
      | None => (Raised (no_such_bucket "ListObjectsV2"), w)
      end
  | get_object b k =>
      match lookup b w with
      | Some objs =>
          match lookup k objs with
          | Some body => (Ok body, w)
          | None => (Raised no_such_key, w)
          end
      | None => (Raised (no_such_bucket "GetObject"), w)
      end
  end.

#[export] Instance client : S3Client store := {| respond := answer |}.

(** An object holding the UTF-8 encoding of a text. *)
Definition text_object (key text : string) : string * list byte :=
  (key, list_byte_of_string text).

End MemStore.

(** ** The claims that fail as they are written *)

(** The array-sampling claim as the specification words it: whenever the
    decoded content of an object parses as a JSON array, the inspector
    reports the length of the array and then prints its first element under
    the sample header. *)
Definition array_sampling_as_stated (W : Type) (s3_client : S3Client W)
    (py : PyRuntime) : Prop :=
  forall (obj : Object) (w w' : W) (body : list byte) (content : string)
         (items : list json),
    respond (get_object bucket_name (Key obj)) w = (Ok body, w') ->
    decode_utf8 body = Some content ->
    json_loads content = Ok (JList items) ->
    exists first,
      nth_error items 0 = Some first /\
      inspect obj w =
        ([Print (content_header (Key obj)); Print rule;
          Call (get_object bucket_name (Key obj)) None;
          Print structure_line;
          Print (records_line (List.length items));
          Print sample_header;
          Print (json_dumps_indent2 first)], Ok tt, w').

(** A trace of prints: no store call in it. *)
Definition prints_only (t : list event) : Prop :=
  Forall (fun ev => is_call ev = false) t.

(** A trace in which no store call raised. *)
Definition quiet (t : list event) : Prop :=
  Forall (fun ev => is_failed_call ev = false) t.



(** Every event of every run of [m] satisfies [P], and every run takes the
    store from a state to one related to it by [R]. *)
Definition respects {W A : Type} (P : event -> Prop) (R : W -> W -> Prop)
    (m : script (W := W) A) : Prop :=
  forall w, Forall P (trace (m w)) /\ R w (final (m w)).

(** The inspection pass of [check_s3_data] with what follows it, over the
    listing the enumeration pass printed. *)
Definition inspection_pass {W : Type} {s3_client : S3Client W} {py : PyRuntime}
    (contents : list Object) : script (W := W) unit :=
  try_except (for_each contents inspect ;; print closing_rule) access_handler.

(** The head of the trace of an inspection whose fetch succeeds: header,
    rule and the call. *)
Definition fetched (obj : Object) : list event :=
  [Print (content_header (Key obj)); Print rule;
   Call (get_object bucket_name (Key obj)) None].

(** The trace of a fresh creation that lists [buckets]. *)
Definition created_trace (buckets : list Bucket) : list event :=
  ([Call (create_bucket bucket_name) None; Print created_message;
    Call list_buckets None; Print available_header]
   ++ map (fun bucket => Print (bucket_line bucket)) buckets)%list.

(** The trace of a creation that meets the conflict [e]. *)
Definition conflict_trace (e : exception) : list event :=
  [Call (create_bucket bucket_name) (Some e); Print already_exists_message].

(** ** A store that refuses

    Every call is answered with [AccessDenied], to run the scripts against
    a store error that is not the already-owned conflict. *)

Module Denying.

Definition access_denied (operation : string) : exception :=
  MemStore.client_error "AccessDenied" operation "Access Denied.".

Definition operation_name (op : s3_op) : string :=
  match op with
  | create_bucket _ => "CreateBucket"
  | list_buckets => "ListBuckets"
  | list_objects_v2 _ => "ListObjectsV2"
  | get_object _ _ => "GetObject"
  end.

Definition client : S3Client unit :=
  {| respond := fun op w => (Raised (access_denied (operation_name op)), w) |}.

End Denying.

(** ** Example buckets *)

Module Examples.

Import MemStore JsonFragment.

Definition array_text : string := dq "[{'id':1},{'id':2},{'id':3}]".

Definition object_text : string := dq "{'id':1}".

(** The pretty-printed form of the object [{"id":1}]. *)
Definition object_dump : string := dq "{
  'id': 1
}".

Definition no_bucket : store := [].

Definition empty_bucket_store : store := [(bucket_name, [])].

Definition array_store : store :=
  [(bucket_name, [text_object "a.json" array_text])].

Definition empty_array_store : store :=
  [(bucket_name, [text_object "empty.json" "[]"])].

Definition object_store : store :=
  [(bucket_name, [text_object "c.json" object_text])].

Definition mixed_store : store :=
  [(bucket_name, [text_object "a.json" array_text;
                  text_object "b.txt" "hello world"])].

Definition a_json : Object := {| Key := "a.json"; Size := 28 |}.
Definition b_txt : Object := {| Key := "b.txt"; Size := 11 |}.
Definition c_json : Object := {| Key := "c.json"; Size := 8 |}.
Definition empty_json : Object := {| Key := "empty.json"; Size := 2 |}.

End Examples.

(** ** Calls and printed reports *)

(** The store calls of a trace, in the order they were made. *)
Fixpoint ops (t : list event) : list s3_op :=
  match t with
  | [] => []
  | Call op _ :: t' => op :: ops t'
  | Print _ :: t' => ops t'
  end.

(** The lines the inspector prints for a parsed value: the structure line,
    the count, and then the sample of a non-empty array or the whole
    value. *)
Definition shown {py : PyRuntime} (data : json) : list event :=
  [Print structure_line; Print (records_line (number_of_records data))]
  ++ match data with
     | JList (first :: _) =>
         [Print sample_header; Print (json_dumps_indent2 first)]
     | _ => [Print (json_dumps_indent2 data)]
     end.

(** The lines the inspector prints for a decoded content that [json.loads]
    parses or rejects with [JSONDecodeError]. *)
Definition report {py : PyRuntime} (content : string) : list event :=
  match json_loads content with
  | Ok data => shown data
  | Raised _ => [Print not_json_message; Print content]
  end.

(** ** More stores *)

(** Credentials that may create buckets and nothing else. *)
Module CreateOnly.

Definition client : S3Client unit :=
  {| respond := fun op w =>
       match op return result (output op) * unit with
       | create_bucket _ => (Ok tt, w)
       | op' => (Raised (Denying.access_denied (Denying.operation_name op')), w)
       end |}.

End CreateOnly.

(** An endpoint nobody listens on: the SDK raises an exception that is not
    a [ClientError]. *)
Module Unreachable.

Definition connection_error : exception :=
  OtherException "EndpointConnectionError".

Definition client : S3Client unit :=
  {| respond := fun op w => (Raised connection_error, w) |}.

End Unreachable.

(** The reference store with another client at work: right after a listing
    is answered, every object is deleted. *)
Module Racing.

Definition emptied (w : MemStore.store) : MemStore.store :=
  map (fun b => (fst b, [])) w.

Definition answer (op : s3_op) (w : MemStore.store)
  : result (output op) * MemStore.store :=
  match op return result (output op) * MemStore.store with
  | list_objects_v2 b =>
      (fst (MemStore.answer (list_objects_v2 b) w), emptied w)
  | op' => MemStore.answer op' w
  end.

Definition client : S3Client MemStore.store := {| respond := answer |}.

End Racing.

Module Scenarios.

Import MemStore.

(** A bucket whose second object is not UTF-8. *)
Definition binary_store : store :=
  [(bucket_name, [text_object "empty.json" "[]";
                  ("blob.bin", [x68; xff]);
                  text_object "b.txt" "hello world"])].

Definition blob_bin : Object := {| Key := "blob.bin"; Size := 2 |}.

(** A text that is not JSON: 4301 digits and a letter. *)
Definition long_number : string := repeat_char "1" 4301 ++ "x".

(** A bucket whose second object holds that text. *)
Definition digits_store : store :=
  [(bucket_name, [text_object "empty.json" "[]";
                  text_object "digits.txt" long_number;
                  text_object "b.txt" "hello world"])].

Definition digits_txt : Object := {| Key := "digits.txt"; Size := 4302 |}.

End Scenarios.

(** ** More claims that fail as they are written *)

(** The fallback claim as the specification words it: whenever the decoded
    content of an object does not parse as JSON ([json.loads] gives no
    value), the inspector prints the not-valid-JSON line and the content,
    the inspection ends normally and the loop goes on. *)
Definition non_json_fallback_as_stated (W : Type) (s3_client : S3Client W)
    (py : PyRuntime) : Prop :=
  forall (obj : Object) (rest : list Object) (w w' : W) (body : list byte)
         (content : string),
    respond (get_object bucket_name (Key obj)) w = (Ok body, w') ->
    decode_utf8 body = Some content ->
    (forall data, json_loads content <> Ok data) ->
    inspect obj w
    = ((fetched obj ++ [Print not_json_message; Print content])%list, Ok tt, w')
    /\ for_each (obj :: rest) inspect w
       = after (fetched obj ++ [Print not_json_message; Print content])
           (for_each rest inspect w').


(** * Proofs *)

(** ** Running the monad *)

Section Running.

Context {W : Type}.

Lemma after_pair {A : Type} (t t' : list event) (r : result A) (w : W) :
  after t (t', r, w) = ((t ++ t')%list, r, w).
Proof. reflexivity. Qed.

Lemma after_after {A : Type} (t t' : list event) (r : run_result (W := W) A) :
  after t (after t' r) = after (t ++ t') r.
Proof.
  destruct r as [[t'' o] w]. unfold after, trace, outcome, final; simpl.
  now rewrite app_assoc.
Qed.

Lemma after_nil {A : Type} (r : run_result (W := W) A) : after [] r = r.
Proof. now destruct r as [[t o] w]. Qed.

Lemma bind_ok {A B : Type} (m : script A) (k : A -> script B)
    (w w' : W) (t : list event) (a : A) :
  m w = (t, Ok a, w') -> bind m k w = after t (k a w').
Proof. intros H. unfold bind. now rewrite H. Qed.

Lemma bind_raised {A B : Type} (m : script A) (k : A -> script B)
    (w w' : W) (t : list event) (e : exception) :
  m w = (t, Raised e, w') -> bind m k w = (t, Raised e, w').
Proof. intros H. unfold bind. now rewrite H. Qed.

Lemma bind_print {B : Type} (text : string) (k : unit -> script B) (w : W) :
  bind (print text) k w = after [Print text] (k tt w).
Proof. reflexivity. Qed.

Lemma bind_ret {A B : Type} (a : A) (k : A -> script B) (w : W) :
  bind (ret a) k w = k a w.
Proof. unfold bind, ret. now rewrite after_nil. Qed.

Lemma try_except_ok {A : Type} (body : script A) handler
    (w w' : W) (t : list event) (a : A) :
  body w = (t, Ok a, w') -> try_except body handler w = (t, Ok a, w').
Proof. intros H. unfold try_except. now rewrite H. Qed.

Lemma try_except_caught {A : Type} (body : script A) handler (h : script A)
    (w w' : W) (t : list event) (e : exception) :
  body w = (t, Raised e, w') -> handler e = Some h ->
  try_except body handler w = after t (h w').
Proof. intros H He. unfold try_except. now rewrite H, He. Qed.

Lemma try_except_passed {A : Type} (body : script A) handler
    (w w' : W) (t : list event) (e : exception) :
  body w = (t, Raised e, w') -> handler e = None ->
  try_except body handler w = (t, Raised e, w').
Proof. intros H He. unfold try_except. now rewrite H, He. Qed.

(** A [try] whose body starts with steps that succeed. *)
Lemma try_except_bind_ok {A B : Type} (m : script A) (k : A -> script B) handler
    (w w' : W) (t : list event) (a : A) :
  m w = (t, Ok a, w') ->
  try_except (bind m k) handler w = after t (try_except (k a) handler w').
Proof.
  intros H. unfold try_except. rewrite (bind_ok _ _ _ _ _ _ H).
  destruct (k a w') as [[t' [b | e]] w'']; simpl.
  - reflexivity.
  - destruct (handler e) as [h |]; [| reflexivity].
    now rewrite after_after.
Qed.

(** A loop of prints. *)
Lemma for_each_print {A : Type} (line : A -> string) (xs : list A) (w : W) :
  for_each xs (fun x => print (line x)) w
  = (map (fun x => Print (line x)) xs, Ok tt, w).
Proof.
  induction xs as [| x xs IH]; [reflexivity |].
  cbn [for_each map]. rewrite bind_print, IH. reflexivity.
Qed.

(** A loop goes on after an iteration that succeeds. *)
Lemma for_each_cons_ok {A : Type} (body : A -> script unit) (x : A) (xs : list A)
    (w w' : W) (t : list event) :
  body x w = (t, Ok tt, w') ->
  for_each (x :: xs) body w = after t (for_each xs body w').
Proof.
  intros H. cbn [for_each].
  exact (bind_ok (body x) (fun _ => for_each xs body) w w' t tt H).
Qed.

Context {s3_client : S3Client W}.

Lemma call_answer (op : s3_op) (w w' : W) (r : result (output op)) :
  respond op w = (r, w') -> call op w = ([Call op (raised_by r)], r, w').
Proof. intros H. unfold call. now rewrite H. Qed.

End Running.

(** ** The inspector, object by object *)

Section Inspector.

Context {W : Type} {s3_client : S3Client W} {py : PyRuntime}.

Lemma show_json_sample (first : json) (others : list json) (w : W) :
  show_json (JList (first :: others)) w
  = ([Print structure_line;
      Print (records_line (S (List.length others)));
      Print sample_header;
      Print (json_dumps_indent2 first)], Ok tt, w).
Proof. reflexivity. Qed.

Lemma show_json_empty (w : W) :
  show_json (JList []) w
  = ([Print structure_line; Print (records_line 0);
      Print (json_dumps_indent2 (JList []))], Ok tt, w).
Proof. reflexivity. Qed.

Lemma show_json_whole (data : json) (w : W) :
  isinstance_list data = false ->
  show_json data w
  = ([Print structure_line; Print (records_line 1);
      Print (json_dumps_indent2 data)], Ok tt, w).
Proof.
  intros H. unfold show_json, number_of_records. rewrite H.
  reflexivity.
Qed.

(** Once the object is fetched and decoded, the inner [try] runs. *)
Lemma inspect_fetched (obj : Object) (w w' : W) (body : list byte)
    (content : string) :
  respond (get_object bucket_name (Key obj)) w = (Ok body, w') ->
  decode_utf8 body = Some content ->
  inspect obj w
  = after (fetched obj)
      (try_except
         (data <- of_result (json_loads content) ;;
          show_json data)
         (json_handler content) w').
Proof.
  intros Hget Hdec. unfold inspect.
  rewrite !bind_print.
  rewrite (bind_ok _ _ _ _ _ _ (call_answer _ _ _ _ Hget)).
  rewrite Hdec. cbn [of_option]. rewrite bind_ret.
  rewrite !after_after. reflexivity.
Qed.

Lemma inspect_parsed (obj : Object) (w w' : W) (body : list byte)
    (content : string) (data : json) :
  respond (get_object bucket_name (Key obj)) w = (Ok body, w') ->
  decode_utf8 body = Some content ->
  json_loads content = Ok data ->
  inspect obj w = after (fetched obj) (show_json data w').
Proof.
  intros Hget Hdec Hload.
  rewrite (inspect_fetched _ _ _ _ _ Hget Hdec), Hload.
  cbn [of_result]. f_equal.
  unfold try_except. rewrite bind_ret.
  destruct data as [| b | z | r | s | [| first others] | kvs];
    try (rewrite show_json_whole by reflexivity; reflexivity).
  - now rewrite show_json_empty.
  - now rewrite show_json_sample.
Qed.

Lemma inspect_unparsed (obj : Object) (w w' : W) (body : list byte)
    (content : string) :
  respond (get_object bucket_name (Key obj)) w = (Ok body, w') ->
  decode_utf8 body = Some content ->
  json_loads content = Raised JSONDecodeError ->
  inspect obj w
  = ((fetched obj ++ [Print not_json_message; Print content])%list, Ok tt, w').
Proof.
  intros Hget Hdec Hload.
  rewrite (inspect_fetched _ _ _ _ _ Hget Hdec), Hload.
  reflexivity.
Qed.

(** What [json.loads] raises that is not a [JSONDecodeError] goes through
    the inner [except]. *)
Lemma inspect_loads_raised (obj : Object) (w w' : W) (body : list byte)
    (content : string) (e : exception) :
  respond (get_object bucket_name (Key obj)) w = (Ok body, w') ->
  decode_utf8 body = Some content ->
  json_loads content = Raised e ->
  e <> JSONDecodeError ->
  inspect obj w = (fetched obj, Raised e, w').
Proof.
  intros Hget Hdec Hload He.
  rewrite (inspect_fetched _ _ _ _ _ Hget Hdec), Hload.
  destruct e as [c s | | | name]; [reflexivity | | reflexivity ..].
  now contradiction He.
Qed.

(** C1 (as amended): when the decoded content of an object parses as a JSON
    array, the inspector reports the length of the array as the number of
    records; when the array is not empty it then prints the sample header
    and pretty-prints the first element only, and when the array is empty it
    pretty-prints the array itself, with no sample. *)
Theorem array_sampling (obj : Object) (w w' : W) (body : list byte)
    (content : string) (items : list json) :
  respond (get_object bucket_name (Key obj)) w = (Ok body, w') ->
  decode_utf8 body = Some content ->
  json_loads content = Ok (JList items) ->
  inspect obj w
  = ((fetched obj
      ++ [Print structure_line; Print (records_line (List.length items))]
      ++ match items with
         | first :: _ => [Print sample_header; Print (json_dumps_indent2 first)]
         | [] => [Print (json_dumps_indent2 (JList []))]
         end)%list, Ok tt, w').
Proof.
  intros Hget Hdec Hload.
  rewrite (inspect_parsed _ _ _ _ _ _ Hget Hdec Hload).
  destruct items as [| first others].
  - now rewrite show_json_empty.
  - now rewrite show_json_sample.
Qed.

(** C3 (as amended): when [json.loads] rejects the decoded content of an
    object with a [JSONDecodeError], the inspector prints the
    not-valid-JSON line and the decoded text as it is, the inspection of the
    object ends without an exception, and the loop goes on with the objects
    that remain. *)
Theorem non_json_fallback (obj : Object) (rest : list Object) (w w' : W)
    (body : list byte) (content : string) :
  respond (get_object bucket_name (Key obj)) w = (Ok body, w') ->
  decode_utf8 body = Some content ->
  json_loads content = Raised JSONDecodeError ->
  inspect obj w
  = ((fetched obj ++ [Print not_json_message; Print content])%list, Ok tt, w')
  /\ for_each (obj :: rest) inspect w
     = after (fetched obj ++ [Print not_json_message; Print content])
         (for_each rest inspect w').
Proof.
  intros Hget Hdec Hload.
  pose proof (inspect_unparsed _ _ _ _ _ Hget Hdec Hload) as Hrun.
  split; [exact Hrun |].
  now apply for_each_cons_ok.
Qed.


(** C9: when the decoded content of an object parses as JSON that is not an
    array, the inspector still prints the line "Structure: JSON Array" and
    then a number of records of 1, whatever the value is. *)
Theorem non_array_header (obj : Object) (w w' : W) (body : list byte)
    (content : string) (data : json) :
  respond (get_object bucket_name (Key obj)) w = (Ok body, w') ->
  decode_utf8 body = Some content ->
  json_loads content = Ok data ->
  isinstance_list data = false ->
  exists after_them,
    trace (inspect obj w)
    = (fetched obj
       ++ [Print "📊 Structure: JSON Array"; Print "📊 Number of records: 1"]
       ++ after_them)%list.
Proof.
  intros Hget Hdec Hload Hnot.
  rewrite (inspect_parsed _ _ _ _ _ _ Hget Hdec Hload).
  rewrite (show_json_whole _ _ Hnot).
  exists [Print (json_dumps_indent2 data)]. reflexivity.
Qed.

End Inspector.

(** ** The provisioner *)

Section Provisioner.

Context {W : Type} {s3_client : S3Client W}.

(** What the [except] clause of the provisioner prints for an exception it
    names. *)
Lemma create_handler_client (Code e_str : string) :
  create_handler (W := W) (ClientError Code e_str)
  = Some (print (if String.eqb Code "BucketAlreadyOwnedByYou"
                 then already_exists_message
                 else create_error_message e_str)).
Proof.
  cbn [create_handler].
  now destruct (String.eqb Code "BucketAlreadyOwnedByYou").
Qed.

Lemma create_body_create_failed (w w' : W) (e : exception) :
  respond (create_bucket bucket_name) w = (Raised e, w') ->
  create_body w = ([Call (create_bucket bucket_name) (Some e)], Raised e, w').
Proof.
  intros Hcreate. apply bind_raised. exact (call_answer _ _ _ _ Hcreate).
Qed.

Lemma create_body_list_failed (w w1 w2 : W) (e : exception) :
  respond (create_bucket bucket_name) w = (Ok tt, w1) ->
  respond list_buckets w1 = (Raised e, w2) ->
  create_body w
  = ([Call (create_bucket bucket_name) None; Print created_message;
      Call list_buckets (Some e)], Raised e, w2).
Proof.
  intros Hcreate Hlist. unfold create_body.
  rewrite (bind_ok _ _ _ _ _ _ (call_answer _ _ _ _ Hcreate)).
  rewrite bind_print.
  rewrite (bind_raised _ _ _ _ _ _ (call_answer _ _ _ _ Hlist)).
  reflexivity.
Qed.

Lemma create_body_fresh (w w1 w2 : W) (buckets : list Bucket) :
  respond (create_bucket bucket_name) w = (Ok tt, w1) ->
  respond list_buckets w1 = (Ok buckets, w2) ->
  create_body w = (created_trace buckets, Ok tt, w2).
Proof.
  intros Hcreate Hlist. unfold create_body.
  rewrite (bind_ok _ _ _ _ _ _ (call_answer _ _ _ _ Hcreate)).
  rewrite bind_print.
  rewrite (bind_ok _ _ _ _ _ _ (call_answer _ _ _ _ Hlist)).
  rewrite bind_print, for_each_print.
  reflexivity.
Qed.

Lemma create_conflict (w w' : W) (e_str : string) :
  respond (create_bucket bucket_name) w
  = (Raised (ClientError "BucketAlreadyOwnedByYou" e_str), w') ->
  create_s3_bucket w
  = (conflict_trace (ClientError "BucketAlreadyOwnedByYou" e_str), Ok tt, w').
Proof.
  intros Hcreate. unfold create_s3_bucket.
  rewrite (try_except_caught _ _ _ _ _ _ _
             (create_body_create_failed _ _ _ Hcreate)
             (create_handler_client _ _)).
  reflexivity.
Qed.

Lemma create_fresh (w w1 w2 : W) (buckets : list Bucket) :
  respond (create_bucket bucket_name) w = (Ok tt, w1) ->
  respond list_buckets w1 = (Ok buckets, w2) ->
  create_s3_bucket w = (created_trace buckets, Ok tt, w2).
Proof.
  intros Hcreate Hlist.
  apply try_except_ok. exact (create_body_fresh _ _ _ _ Hcreate Hlist).
Qed.

(** C2: whenever the store answers the creation with the conflict
    [BucketAlreadyOwnedByYou], the provisioner prints the already-exists
    success line, prints no failure line and returns normally; and when the
    store accepts a first creation, lists the buckets and answers a second
    creation with that conflict, two runs in a row give "created" with the
    listing and then "already exists", and both return normally. *)
Theorem create_idempotent :
  (forall (w w' : W) (e_str : string),
     respond (create_bucket bucket_name) w
     = (Raised (ClientError "BucketAlreadyOwnedByYou" e_str), w') ->
     create_s3_bucket w
     = ([Call (create_bucket bucket_name)
           (Some (ClientError "BucketAlreadyOwnedByYou" e_str));
         Print "✅ Bucket test-data-lake already exists"], Ok tt, w'))
  /\
  (forall (w w1 w2 w3 : W) (buckets : list Bucket) (e_str : string),
     respond (create_bucket bucket_name) w = (Ok tt, w1) ->
     respond list_buckets w1 = (Ok buckets, w2) ->
     respond (create_bucket bucket_name) w2
     = (Raised (ClientError "BucketAlreadyOwnedByYou" e_str), w3) ->
     (create_s3_bucket ;; create_s3_bucket) w
     = ((created_trace buckets
         ++ conflict_trace (ClientError "BucketAlreadyOwnedByYou" e_str))%list,
        Ok tt, w3)).
Proof.
  split.
  - intros w w' e_str Hcreate. now rewrite (create_conflict _ _ _ Hcreate).
  - intros w w1 w2 w3 buckets e_str Hcreate Hlist Hagain.
    rewrite (bind_ok _ _ _ _ _ _ (create_fresh _ _ _ _ Hcreate Hlist)).
    now rewrite (create_conflict _ _ _ Hagain).
Qed.

(** C10: the provisioner calls list-buckets and prints the bucket names on
    the path where the creation succeeds, and only there: a run whose
    creation and listing succeed prints the header and one line per bucket
    listed; a run that meets the already-owned conflict prints only the
    already-exists line and makes no other call; and in any run at all, a
    list-buckets call comes right after a creation that succeeded and its
    success line. *)
Theorem listing_only_after_creation :
  (forall (w w1 w2 : W) (buckets : list Bucket),
     respond (create_bucket bucket_name) w = (Ok tt, w1) ->
     respond list_buckets w1 = (Ok buckets, w2) ->
     trace (create_s3_bucket w)
     = ([Call (create_bucket bucket_name) None; Print created_message;
         Call list_buckets None; Print available_header]
        ++ map (fun bucket => Print ("  - " ++ Name bucket)) buckets)%list)
  /\
  (forall (w w' : W) (e_str : string),
     respond (create_bucket bucket_name) w
     = (Raised (ClientError "BucketAlreadyOwnedByYou" e_str), w') ->
     trace (create_s3_bucket w)
     = [Call (create_bucket bucket_name)
          (Some (ClientError "BucketAlreadyOwnedByYou" e_str));
        Print already_exists_message])
  /\
  (forall (w : W) (raised : option exception),
     In (Call list_buckets raised) (trace (create_s3_bucket w)) ->
     exists then_on,
       trace (create_s3_bucket w)
       = Call (create_bucket bucket_name) None :: Print created_message
         :: Call list_buckets raised :: then_on).
Proof.
  split; [| split].
  - intros w w1 w2 buckets Hcreate Hlist.
    now rewrite (create_fresh _ _ _ _ Hcreate Hlist).
  - intros w w' e_str Hcreate. now rewrite (create_conflict _ _ _ Hcreate).
  - intros w raised Hin.
    destruct (respond (create_bucket bucket_name) w) as [[[] | e] w1] eqn:Hcreate.
    + destruct (respond list_buckets w1) as [[buckets | e] w2] eqn:Hlist.
      * rewrite (create_fresh _ _ _ _ Hcreate Hlist) in *.
        unfold created_trace, trace in *. cbn [fst app] in *.
        destruct Hin as [Hin | [Hin | [Hin | [Hin | Hin]]]]; try discriminate.
        -- injection Hin as <-. eexists. reflexivity.
        -- apply in_map_iff in Hin. destruct Hin as [b [Hb _]]. discriminate.
      * pose proof (create_body_list_failed _ _ _ _ Hcreate Hlist) as Hbody.
        unfold create_s3_bucket in *.
        destruct e as [c s | | |];
          [ rewrite (try_except_caught _ _ _ _ _ _ _ Hbody
                       (create_handler_client _ _)) in *
          | rewrite (try_except_passed _ _ _ _ _ _ Hbody eq_refl) in * .. ];
          unfold trace in *; cbn [print after trace fst app] in *;
          repeat (destruct Hin as [Hin | Hin]; try discriminate);
          try contradiction;
          injection Hin as <-; eexists; reflexivity.
    + pose proof (create_body_create_failed _ _ _ Hcreate) as Hbody.
      unfold create_s3_bucket in *.
      exfalso.
      destruct e as [c s | | |];
        [ rewrite (try_except_caught _ _ _ _ _ _ _ Hbody
                     (create_handler_client _ _)) in *
        | rewrite (try_except_passed _ _ _ _ _ _ Hbody eq_refl) in * .. ];
        unfold trace in *; cbn [print after trace fst app] in *;
        repeat (destruct Hin as [Hin | Hin]; try discriminate);
        contradiction.
Qed.

End Provisioner.

(** ** Runs stop at the first store call that raises *)

Section Stopping.

Context {W : Type}.



Variable own : exception -> Prop.






Context {s3_client : S3Client W}.




End Stopping.

Section StoppingInspector.

Context {W : Type} {s3_client : S3Client W} {py : PyRuntime}.






End StoppingInspector.

(** ** Properties of every event and of the store *)

Section Respecting.

Context {W : Type}.
Variable P : event -> Prop.
Variable R : W -> W -> Prop.
Hypothesis P_print : forall text, P (Print text).
Hypothesis R_refl : forall w, R w w.
Hypothesis R_trans : forall w1 w2 w3, R w1 w2 -> R w2 w3 -> R w1 w3.

Lemma respects_ret {A : Type} (a : A) : respects P R (ret a).
Proof. intros w. split; [constructor | apply R_refl]. Qed.

Lemma respects_raise {A : Type} (e : exception) : respects P R (raise (A := A) e).
Proof. intros w. split; [constructor | apply R_refl]. Qed.

Lemma respects_print (text : string) : respects P R (print text).
Proof. intros w. split; [repeat constructor; apply P_print | apply R_refl]. Qed.

Lemma respects_bind {A B : Type} (m : script A) (k : A -> script B) :
  respects P R m -> (forall a, respects P R (k a)) -> respects P R (bind m k).
Proof.
  intros Hm Hk w. specialize (Hm w). unfold bind.
  destruct (m w) as [[t [a | e]] w']; [| exact Hm].
  destruct Hm as [Ht Hw]. destruct (Hk a w') as [Ht' Hw'].
  unfold after, trace, final in *. cbn [fst snd] in *. split.
  - now apply Forall_app.
  - now apply R_trans with w'.
Qed.

Lemma respects_try_except {A : Type} (body : script A)
    (handler : exception -> option (script A)) :
  respects P R body ->
  (forall e h, handler e = Some h -> respects P R h) ->
  respects P R (try_except body handler).
Proof.
  intros Hbody Hhandler w. specialize (Hbody w). unfold try_except.
  destruct (body w) as [[t [a | e]] w']; [exact Hbody |].
  destruct (handler e) as [h |] eqn:He; [| exact Hbody].
  destruct Hbody as [Ht Hw]. destruct (Hhandler e h He w') as [Ht' Hw'].
  unfold after, trace, final in *. cbn [fst snd] in *. split.
  - now apply Forall_app.
  - now apply R_trans with w'.
Qed.

Lemma respects_for_each {A : Type} (body : A -> script unit) (xs : list A) :
  (forall x, respects P R (body x)) -> respects P R (for_each xs body).
Proof.
  intros Hbody. induction xs as [| x xs IH]; cbn [for_each].
  - apply respects_ret.
  - apply respects_bind; [apply Hbody | intros _; exact IH].
Qed.

Lemma respects_of_option {A : Type} (e : exception) (o : option A) :
  respects P R (of_option e o).
Proof. destruct o; [apply respects_ret | apply respects_raise]. Qed.

Lemma respects_of_result {A : Type} (r : result A) :
  respects P R (of_result (W := W) r).
Proof. destruct r; [apply respects_ret | apply respects_raise]. Qed.

Context {s3_client : S3Client W}.

Lemma respects_call (op : s3_op) :
  (forall raised, P (Call op raised)) ->
  (forall w, R w (snd (respond op w))) ->
  respects P R (call op).
Proof.
  intros HP HR w. specialize (HR w). unfold call.
  destruct (respond op w) as [r w']. split; [| exact HR].
  repeat constructor. apply HP.
Qed.

Context {py : PyRuntime}.

(** The inspector, given that [P] holds of the two kinds of call it makes
    and that those calls take the store along [R]. *)
Lemma respects_check_s3_data :
  (forall raised, P (Call (list_objects_v2 bucket_name) raised)) ->
  (forall key raised, P (Call (get_object bucket_name key) raised)) ->
  (forall w, R w (snd (respond (list_objects_v2 bucket_name) w))) ->
  (forall key w, R w (snd (respond (get_object bucket_name key) w))) ->
  respects P R check_s3_data.
Proof.
  intros Plist Pget Rlist Rget.
  apply respects_try_except.
  - apply respects_bind; [now apply respects_call | intros objects].
    apply respects_bind; [apply respects_print | intros _].
    apply respects_bind.
    { apply respects_for_each. intros obj. apply respects_print. }
    intros _.
    apply respects_bind; [| intros _; apply respects_print].
    apply respects_for_each. intros obj. unfold inspect.
    apply respects_bind; [apply respects_print | intros _].
    apply respects_bind; [apply respects_print | intros _].
    apply respects_bind; [apply respects_call; auto | intros body].
    apply respects_bind; [apply respects_of_option | intros content].
    apply respects_try_except.
    + apply respects_bind; [apply respects_of_result | intros data].
      unfold show_json.
      apply respects_bind; [apply respects_print | intros _].
      apply respects_bind; [apply respects_print | intros _].
      destruct (isinstance_list data && (0 <? len data)%nat).
      * apply respects_bind; [apply respects_print | intros _].
        apply respects_bind; [apply respects_of_result | intros first].
        apply respects_print.
      * apply respects_print.
    + intros [c s | | |] h He; try discriminate.
      injection He as <-.
      apply respects_bind; [apply respects_print | intros _].
      apply respects_print.
  - intros [c s | | |] h He; try discriminate.
    injection He as <-. apply respects_print.
Qed.

End Respecting.

(** ** The inspector as a whole *)

Section WholeInspector.

Context {W : Type} {s3_client : S3Client W} {py : PyRuntime}.

(** Once the listing is there, the run is the enumeration and then the
    inspection pass over the same listing. *)
Lemma check_listed (w w' : W) (objects : option (list Object)) :
  respond (list_objects_v2 bucket_name) w = (Ok objects, w') ->
  check_s3_data w
  = after ([Call (list_objects_v2 bucket_name) None; Print files_header]
           ++ map (fun obj => Print (file_line obj)) (get_Contents objects))
      (inspection_pass (get_Contents objects) w').
Proof.
  intros Hlist. unfold check_s3_data, check_body.
  rewrite (try_except_bind_ok _ _ _ _ _ _ _ (call_answer _ _ _ _ Hlist)).
  rewrite (try_except_bind_ok (print files_header) _ _ w' w'
             [Print files_header] tt eq_refl).
  rewrite (try_except_bind_ok (enumerate (get_Contents objects)) _ _ w' w' _ tt
             (for_each_print file_line _ _)).
  rewrite !after_after. reflexivity.
Qed.

(** C6: for the listing the store returns, the enumeration pass prints one
    line per entry of that listing, with the entry's key and size, in the
    order of the listing, nothing left out and nothing twice: the run starts
    with the listing call, the header and exactly those lines, and what
    follows is the inspection pass. *)
Theorem listing_complete (w w' : W) (objects : option (list Object)) :
  respond (list_objects_v2 bucket_name) w = (Ok objects, w') ->
  enumerate (get_Contents objects) w'
  = (map (fun obj =>
            Print ("  📄 " ++ Key obj ++ " (size: " ++ str_int (Size obj)
                   ++ " bytes)"))
       (get_Contents objects), Ok tt, w')
  /\ trace (check_s3_data w)
     = ([Call (list_objects_v2 bucket_name) None; Print "📋 Files in S3 bucket:"]
        ++ map (fun obj =>
                  Print ("  📄 " ++ Key obj ++ " (size: " ++ str_int (Size obj)
                         ++ " bytes)"))
            (get_Contents objects)
        ++ trace (inspection_pass (get_Contents objects) w'))%list.
Proof.
  intros Hlist. split.
  - apply (for_each_print file_line).
  - rewrite (check_listed _ _ _ Hlist).
    unfold after, trace. cbn [fst]. now rewrite <- app_assoc.
Qed.

(** C7: when the listing of the bucket has no entry, the inspector prints
    the listing header with no line under it, makes no get-object call (the
    listing call is its only call), prints the closing rule, and returns
    normally with no failure line. *)
Theorem empty_bucket (w w' : W) (objects : option (list Object)) :
  respond (list_objects_v2 bucket_name) w = (Ok objects, w') ->
  get_Contents objects = [] ->
  check_s3_data w
  = ([Call (list_objects_v2 bucket_name) None;
      Print "📋 Files in S3 bucket:";
      Print closing_rule], Ok tt, w').
Proof.
  intros Hlist Hempty.
  rewrite (check_listed _ _ _ Hlist), Hempty.
  reflexivity.
Qed.

(** C8: in every run of the inspector, whatever the store answers and
    whichever exception ends the run, every store call is a read (a listing
    of the bucket's objects or a retrieval of one of them; no creation and
    no other call); and over a store whose reads leave its state as it is,
    the run leaves the state as it is. *)
Theorem inspector_read_only (w : W) :
  Forall (fun ev => read_only_event ev = true) (trace (check_s3_data w))
  /\ Forall (fun ev =>
               match ev with
               | Call (list_objects_v2 b) _ => b = bucket_name
               | Call (get_object b _) _ => b = bucket_name
               | Call _ _ => False
               | Print _ => True
               end) (trace (check_s3_data w))
  /\ ((forall op w0, read_only op = true -> snd (respond op w0) = w0) ->
      final (check_s3_data w) = w).
Proof.
  split; [| split].
  - apply (respects_check_s3_data (fun ev => read_only_event ev = true)
             (fun _ _ => True)); auto.
  - apply (respects_check_s3_data
             (fun ev =>
                match ev with
                | Call (list_objects_v2 b) _ => b = bucket_name
                | Call (get_object b _) _ => b = bucket_name
                | Call _ _ => False
                | Print _ => True
                end)
             (fun _ _ => True)); auto.
  - intros Hreads. symmetry.
    apply (respects_check_s3_data (fun _ => True) eq); auto.
    + intros; congruence.
    + intros w0. symmetry. now apply Hreads.
    + intros key w0. symmetry. now apply Hreads.
Qed.

End WholeInspector.

(** ** The scripts on the example buckets *)

Section OnExamples.

Import MemStore JsonFragment Examples.

Example loads_array :
  loads array_text
  = Ok (JList [JDict [("id", JInt 1)]; JDict [("id", JInt 2)];
               JDict [("id", JInt 3)]]).
Proof. reflexivity. Qed.

Example loads_plain_text : loads "hello world" = Raised JSONDecodeError.
Proof. reflexivity. Qed.

Example loads_trailing_comma : loads "[1,]" = Raised JSONDecodeError.
Proof. reflexivity. Qed.

Example loads_longest_integer :
  loads (repeat_char "1" 4300) = Ok (JInt ((10 ^ 4300 - 1) / 9))
  /\ loads (repeat_char "1" 4301) = Raised value_error
  /\ loads (String "-" (repeat_char "1" 4300)) = Ok (JInt (- ((10 ^ 4300 - 1) / 9)))
  /\ loads ("[1, " ++ repeat_char "1" 4301 ++ "]") = Raised value_error.
Proof. vm_compute. repeat split; reflexivity. Qed.

Example loads_deepest_nesting :
  loads (repeat_char "[" 994 ++ repeat_char "]" 994) <> Raised recursion_error
  /\ loads (repeat_char "[" 995 ++ repeat_char "]" 995) = Raised recursion_error
  /\ loads (repeat_char "[" 994) = Raised JSONDecodeError
  /\ loads (repeat_char "[" 995) = Raised recursion_error.
Proof. vm_compute. repeat split; try reflexivity; discriminate. Qed.

Example dumps_nested :
  dumps (JList [JDict [("id", JInt 1); ("tags", JList [])]; JNull])
  = dq "[
  {
    'id': 1,
    'tags': []
  },
  null
]".
Proof. reflexivity. Qed.

Example decode_rejects_stray_byte : Utf8.decode [x68; xff] = None.
Proof. reflexivity. Qed.

(** A whole run of the inspector, on a bucket with a JSON array and a plain
    text. *)
Example check_s3_data_mixed :
  check_s3_data (py := python) mixed_store
  = ([Call (list_objects_v2 "test-data-lake") None;
      Print "📋 Files in S3 bucket:";
      Print "  📄 a.json (size: 28 bytes)";
      Print "  📄 b.txt (size: 11 bytes)";
      Print (content_header "a.json"); Print rule;
      Call (get_object "test-data-lake" "a.json") None;
      Print "📊 Structure: JSON Array";
      Print "📊 Number of records: 3";
      Print "📄 Sample record:";
      Print object_dump;
      Print (content_header "b.txt"); Print rule;
      Call (get_object "test-data-lake" "b.txt") None;
      Print "⚠️  Not valid JSON, showing raw content:";
      Print "hello world";
      Print closing_rule], Ok tt, mixed_store).
Proof. reflexivity. Qed.

(** A body that is not UTF-8 ends the run with the exception of [decode],
    which no [except] clause of the script names. *)
Example check_s3_data_undecodable :
  outcome (check_s3_data (py := python) [(bucket_name, [("x", [xff])])])
  = Raised UnicodeDecodeError.
Proof. reflexivity. Qed.

(** The reads of the reference store leave it as it is. *)
Lemma memstore_reads_preserve (op : s3_op) (w : store) :
  read_only op = true -> snd (respond op w) = w.
Proof.
  destruct op as [b | | b | b k]; cbn [read_only respond client answer];
    intros Hread; try discriminate.
  - reflexivity.
  - destruct (lookup b w) as [[| o objs] |]; reflexivity.
  - destruct (lookup b w) as [objs |]; [| reflexivity].
    destruct (lookup k objs); reflexivity.
Qed.

(** C1, the counterexample: the object [empty.json] holds the JSON array
    [[]]; the inspector reports 0 records and prints [[]], with no sample
    header and no first element, so the claim as stated fails. *)
Lemma array_sampling_fails_on_empty_array :
  json_loads (PyRuntime := python) "[]" = Ok (JList [])
  /\ inspect (py := python) empty_json empty_array_store
     = ([Print (content_header "empty.json"); Print rule;
         Call (get_object bucket_name "empty.json") None;
         Print "📊 Structure: JSON Array";
         Print "📊 Number of records: 0";
         Print "[]"], Ok tt, empty_array_store)
  /\ ~ array_sampling_as_stated store client python.
Proof.
  split; [reflexivity | split; [reflexivity |]].
  intros Hclaim.
  destruct (Hclaim empty_json empty_array_store empty_array_store
              (list_byte_of_string "[]") "[]" [] eq_refl eq_refl eq_refl)
    as [first [Hfirst _]].
  discriminate.
Qed.

(** The array of three records of the specification. *)
Lemma array_sampling_witness :
  inspect (py := python) a_json array_store
  = ([Print (content_header "a.json"); Print rule;
      Call (get_object bucket_name "a.json") None;
      Print "📊 Structure: JSON Array";
      Print "📊 Number of records: 3";
      Print "📄 Sample record:";
      Print object_dump], Ok tt, array_store).
Proof.
  exact (array_sampling (py := python) a_json array_store array_store
           (list_byte_of_string array_text) array_text
           [JDict [("id", JInt 1)]; JDict [("id", JInt 2)]; JDict [("id", JInt 3)]]
           eq_refl eq_refl eq_refl).
Defined.

(** A bucket that is there already, and two runs from a store with no
    bucket. *)
Lemma create_idempotent_witness :
  create_s3_bucket empty_bucket_store
  = ([Call (create_bucket bucket_name) (Some already_owned);
      Print "✅ Bucket test-data-lake already exists"], Ok tt, empty_bucket_store)
  /\ (create_s3_bucket ;; create_s3_bucket) no_bucket
     = ([Call (create_bucket bucket_name) None;
         Print "✅ Successfully created bucket: test-data-lake";
         Call list_buckets None;
         Print "📋 Available buckets:";
         Print "  - test-data-lake";
         Call (create_bucket bucket_name) (Some already_owned);
         Print "✅ Bucket test-data-lake already exists"],
        Ok tt, empty_bucket_store).
Proof.
  split.
  - refine (proj1 create_idempotent empty_bucket_store empty_bucket_store _ _).
    reflexivity.
  - refine (proj2 create_idempotent no_bucket empty_bucket_store
              empty_bucket_store empty_bucket_store
              [{| Name := bucket_name |}] _ _ _ _); reflexivity.
Defined.

(** The plain text of the specification, with an object left to inspect
    after it. *)
Lemma non_json_fallback_witness :
  inspect (py := python) b_txt mixed_store
  = ([Print (content_header "b.txt"); Print rule;
      Call (get_object bucket_name "b.txt") None;
      Print "⚠️  Not valid JSON, showing raw content:";
      Print "hello world"], Ok tt, mixed_store)
  /\ for_each [b_txt; a_json] (inspect (py := python)) mixed_store
     = after [Print (content_header "b.txt"); Print rule;
              Call (get_object bucket_name "b.txt") None;
              Print "⚠️  Not valid JSON, showing raw content:";
              Print "hello world"]
         (for_each [a_json] (inspect (py := python)) mixed_store).
Proof.
  exact (non_json_fallback (py := python) b_txt [a_json] mixed_store mixed_store
           (list_byte_of_string "hello world") "hello world"
           eq_refl eq_refl eq_refl).
Defined.



(** The same object: its header lines. *)
Lemma non_array_header_witness :
  exists after_them,
    trace (inspect (py := python) c_json object_store)
    = (fetched c_json
       ++ [Print "📊 Structure: JSON Array"; Print "📊 Number of records: 1"]
       ++ after_them)%list.
Proof.
  exact (non_array_header (py := python) c_json object_store object_store
           (list_byte_of_string object_text) object_text
           (JDict [("id", JInt 1)]) eq_refl eq_refl eq_refl eq_refl).
Defined.

(** The two keys of the specification. *)
Lemma listing_complete_witness :
  enumerate [a_json; b_txt] mixed_store
  = ([Print "  📄 a.json (size: 28 bytes)"; Print "  📄 b.txt (size: 11 bytes)"],
     Ok tt, mixed_store)
  /\ trace (check_s3_data (py := python) mixed_store)
     = ([Call (list_objects_v2 bucket_name) None; Print "📋 Files in S3 bucket:";
         Print "  📄 a.json (size: 28 bytes)"; Print "  📄 b.txt (size: 11 bytes)"]
        ++ trace (inspection_pass (py := python) [a_json; b_txt] mixed_store))%list.
Proof.
  exact (listing_complete (py := python) mixed_store mixed_store
           (Some [a_json; b_txt]) eq_refl).
Defined.

(** A bucket with no object. *)
Lemma empty_bucket_witness :
  check_s3_data (py := python) empty_bucket_store
  = ([Call (list_objects_v2 bucket_name) None;
      Print "📋 Files in S3 bucket:";
      Print closing_rule], Ok tt, empty_bucket_store).
Proof.
  exact (empty_bucket (py := python) empty_bucket_store empty_bucket_store None
           eq_refl eq_refl).
Defined.

(** The reference store after a run over two objects. *)
Lemma inspector_read_only_witness :
  final (check_s3_data (py := python) mixed_store) = mixed_store.
Proof.
  exact (proj2 (proj2 (inspector_read_only (py := python) mixed_store))
           memstore_reads_preserve).
Defined.

(** A fresh creation and a conflict on the reference store. *)
Lemma listing_only_after_creation_witness :
  trace (create_s3_bucket no_bucket)
  = [Call (create_bucket bucket_name) None; Print created_message;
     Call list_buckets None; Print available_header;
     Print "  - test-data-lake"]
  /\ trace (create_s3_bucket empty_bucket_store)
     = [Call (create_bucket bucket_name) (Some already_owned);
        Print already_exists_message]
  /\ exists then_on,
       trace (create_s3_bucket no_bucket)
       = Call (create_bucket bucket_name) None :: Print created_message
         :: Call list_buckets None :: then_on.
Proof.
  split; [| split].
  - refine (proj1 listing_only_after_creation no_bucket empty_bucket_store
              empty_bucket_store [{| Name := bucket_name |}] _ _); reflexivity.
  - refine (proj1 (proj2 listing_only_after_creation) empty_bucket_store
              empty_bucket_store _ _). reflexivity.
  - refine (proj2 (proj2 listing_only_after_creation) no_bucket None _).
    vm_compute. right. right. left. reflexivity.
Defined.

End OnExamples.

(** ** The calls a run makes *)

Section Calls.

Context {W : Type}.

Lemma ops_app (t t' : list event) : ops (t ++ t') = (ops t ++ ops t')%list.
Proof.
  induction t as [| [op r | text] t IH]; cbn [ops app]; [reflexivity | |].
  - now rewrite IH.
  - exact IH.
Qed.

Lemma ops_prints_only (t : list event) : prints_only t -> ops t = [].
Proof.
  induction 1 as [| [op r | text] t Hev _ IH]; cbn [ops];
    [reflexivity | discriminate | exact IH].
Qed.

Lemma ops_print_map {A : Type} (line : A -> string) (xs : list A) :
  ops (map (fun x => Print (line x)) xs) = [].
Proof. induction xs as [| x xs IH]; [reflexivity | exact IH]. Qed.

Lemma trace_after {A : Type} (t : list event) (r : run_result (W := W) A) :
  trace (after t r) = (t ++ trace r)%list.
Proof. reflexivity. Qed.

Lemma outcome_after {A : Type} (t : list event) (r : run_result (W := W) A) :
  outcome (after t r) = outcome r.
Proof. reflexivity. Qed.

Context {s3_client : S3Client W}.

(** X1: every run of the provisioner calls create-bucket on the configured
    bucket exactly once, before anything else; it calls list-buckets exactly
    once when that creation returned and not at all when it raised; and it
    makes no other call, so nothing is retried, read or deleted. *)
Theorem provisioner_calls (w : W) :
  (exists raised then_on,
     trace (create_s3_bucket w)
     = Call (create_bucket bucket_name) raised :: then_on)
  /\ ops (trace (create_s3_bucket w))
     = match fst (respond (create_bucket bucket_name) w) with
       | Ok _ => [create_bucket bucket_name; list_buckets]
       | Raised _ => [create_bucket bucket_name]
       end.
Proof.
  destruct (respond (create_bucket bucket_name) w) as [[[] | e] w1] eqn:Hcreate;
    cbn [fst].
  - destruct (respond list_buckets w1) as [[buckets | e] w2] eqn:Hlist.
    + rewrite (create_fresh _ _ _ _ Hcreate Hlist).
      unfold created_trace, trace. cbn [fst app ops]. split.
      * eexists _, _. reflexivity.
      * now rewrite ops_print_map.
    + pose proof (create_body_list_failed _ _ _ _ Hcreate Hlist) as Hbody.
      unfold create_s3_bucket.
      destruct e as [c s | | | name];
        [ rewrite (try_except_caught _ _ _ _ _ _ _ Hbody
                     (create_handler_client _ _))
        | rewrite (try_except_passed _ _ _ _ _ _ Hbody eq_refl) .. ];
        (split; [eexists _, _; reflexivity | reflexivity]).
  - pose proof (create_body_create_failed _ _ _ Hcreate) as Hbody.
    unfold create_s3_bucket.
    destruct e as [c s | | | name];
      [ rewrite (try_except_caught _ _ _ _ _ _ _ Hbody
                   (create_handler_client _ _))
      | rewrite (try_except_passed _ _ _ _ _ _ Hbody eq_refl) .. ];
      (split; [eexists _, _; reflexivity | reflexivity]).
Qed.

(** X2: the [except] clause of the provisioner covers the listing too: when
    the creation returns and list-buckets raises a [ClientError], the run
    has already printed the created line, then prints the line of the
    handler (the already-exists line for the code
    [BucketAlreadyOwnedByYou], the failure line with the error's text
    otherwise), prints no bucket name, and returns normally. *)
Theorem listing_failure_after_creation (w w1 w2 : W) (c s : string) :
  respond (create_bucket bucket_name) w = (Ok tt, w1) ->
  respond list_buckets w1 = (Raised (ClientError c s), w2) ->
  create_s3_bucket w
  = ([Call (create_bucket bucket_name) None;
      Print "✅ Successfully created bucket: test-data-lake";
      Call list_buckets (Some (ClientError c s));
      Print (if String.eqb c "BucketAlreadyOwnedByYou"
             then "✅ Bucket test-data-lake already exists"
             else "❌ Error creating bucket: " ++ s)], Ok tt, w2).
Proof.
  intros Hcreate Hlist.
  pose proof (create_body_list_failed _ _ _ _ Hcreate Hlist) as Hbody.
  unfold create_s3_bucket.
  rewrite (try_except_caught _ _ _ _ _ _ _ Hbody (create_handler_client _ _)).
  now destruct (String.eqb c "BucketAlreadyOwnedByYou").
Qed.

(** X3: the provisioner raises to its caller only what its [except] clause
    does not name: whenever a run ends with an exception, that exception is
    not a [ClientError], it was raised by the last store call of the run,
    and nothing was printed after that call. *)
Theorem provisioner_passes_other_exceptions (w : W) (e : exception) :
  outcome (create_s3_bucket w) = Raised e ->
  (forall c s, e <> ClientError c s)
  /\ exists before op,
       trace (create_s3_bucket w) = (before ++ [Call op (Some e)])%list
       /\ quiet before.
Proof.
  destruct (respond (create_bucket bucket_name) w) as [[[] | e0] w1] eqn:Hcreate.
  - destruct (respond list_buckets w1) as [[buckets | e0] w2] eqn:Hlist.
    + rewrite (create_fresh _ _ _ _ Hcreate Hlist). discriminate.
    + pose proof (create_body_list_failed _ _ _ _ Hcreate Hlist) as Hbody.
      unfold create_s3_bucket.
      destruct e0 as [c s | | | name];
        [ rewrite (try_except_caught _ _ _ _ _ _ _ Hbody
                     (create_handler_client _ _));
          destruct (String.eqb c "BucketAlreadyOwnedByYou"); discriminate
        | rewrite (try_except_passed _ _ _ _ _ _ Hbody eq_refl) .. ];
        intros He; injection He as <-;
        (split; [discriminate |]);
        exists [Call (create_bucket bucket_name) None; Print created_message],
               list_buckets;
        (split; [reflexivity | now repeat constructor]).
  - pose proof (create_body_create_failed _ _ _ Hcreate) as Hbody.
    unfold create_s3_bucket.
    destruct e0 as [c s | | | name];
      [ rewrite (try_except_caught _ _ _ _ _ _ _ Hbody
                   (create_handler_client _ _));
        destruct (String.eqb c "BucketAlreadyOwnedByYou"); discriminate
      | rewrite (try_except_passed _ _ _ _ _ _ Hbody eq_refl) .. ];
      intros He; injection He as <-;
      (split; [discriminate |]);
      exists [], (create_bucket bucket_name);
      (split; [reflexivity | constructor]).
Qed.

End Calls.

(** ** The inspection pass, object after object *)

Section Passes.

Context {W : Type} {s3_client : S3Client W} {py : PyRuntime}.

Lemma show_json_shown (data : json) (w : W) :
  show_json data w = (shown data, Ok tt, w).
Proof.
  destruct data as [| b | z | r | s | [| first others] | kvs];
    try (now rewrite show_json_whole by reflexivity).
  - now rewrite show_json_empty.
  - now rewrite show_json_sample.
Qed.

Lemma report_prints (content : string) : prints_only (report content).
Proof.
  unfold report. destruct (json_loads content) as [data | e].
  - destruct data as [| b | z | r | s | [| first others] | kvs];
      now repeat constructor.
  - now repeat constructor.
Qed.

(** An object that is fetched and decoded, and that [json.loads] parses or
    rejects with [JSONDecodeError], is reported, and the loop body ends
    normally. *)
Lemma inspect_reported (obj : Object) (w w' : W) (body : list byte)
    (content : string) :
  respond (get_object bucket_name (Key obj)) w = (Ok body, w') ->
  decode_utf8 body = Some content ->
  (forall e, json_loads content = Raised e -> e = JSONDecodeError) ->
  inspect obj w = ((fetched obj ++ report content)%list, Ok tt, w').
Proof.
  intros Hget Hdec Honly. unfold report.
  destruct (json_loads content) as [data | e] eqn:Hload.
  - rewrite (inspect_parsed _ _ _ _ _ _ Hget Hdec Hload).
    now rewrite show_json_shown.
  - rewrite (Honly e eq_refl) in Hload.
    exact (inspect_unparsed _ _ _ _ _ Hget Hdec Hload).
Qed.

Lemma inspect_fetch_failed (obj : Object) (w w' : W) (e : exception) :
  respond (get_object bucket_name (Key obj)) w = (Raised e, w') ->
  inspect obj w
  = ([Print (content_header (Key obj)); Print rule;
      Call (get_object bucket_name (Key obj)) (Some e)], Raised e, w').
Proof.
  intros Hget. unfold inspect. rewrite !bind_print.
  rewrite (bind_raised _ _ _ _ _ _ (call_answer _ _ _ _ Hget)).
  reflexivity.
Qed.

Lemma inspect_undecodable (obj : Object) (w w' : W) (body : list byte) :
  respond (get_object bucket_name (Key obj)) w = (Ok body, w') ->
  decode_utf8 body = None ->
  inspect obj w = (fetched obj, Raised UnicodeDecodeError, w').
Proof.
  intros Hget Hdec. unfold inspect. rewrite !bind_print.
  rewrite (bind_ok _ _ _ _ _ _ (call_answer _ _ _ _ Hget)).
  rewrite Hdec. reflexivity.
Qed.

(** Every inspection makes one call: the retrieval of its object. *)
Lemma inspect_ops (obj : Object) (w : W) :
  ops (trace (inspect obj w)) = [get_object bucket_name (Key obj)].
Proof.
  destruct (respond (get_object bucket_name (Key obj)) w) as [[body | e] w']
    eqn:Hget.
  - destruct (decode_utf8 body) as [content |] eqn:Hdec.
    + destruct (json_loads content) as [data | e] eqn:Hload.
      * rewrite (inspect_reported _ _ _ _ _ Hget Hdec)
          by (intros e He; congruence).
        unfold trace, fetched. cbn [fst app ops].
        now rewrite (ops_prints_only _ (report_prints content)).
      * destruct e as [c s | | | name];
          try (rewrite (inspect_loads_raised _ _ _ _ _ _ Hget Hdec Hload)
                 by discriminate; reflexivity).
        now rewrite (inspect_unparsed _ _ _ _ _ Hget Hdec Hload).
    + now rewrite (inspect_undecodable _ _ _ _ Hget Hdec).
  - now rewrite (inspect_fetch_failed _ _ _ _ Hget).
Qed.

(** A loop over [done ++ xs] whose iterations over [done] succeed. *)
Lemma for_each_app_ok {A : Type} (body : A -> script unit) (done xs : list A) :
  forall (w w1 : W) (t : list event),
    for_each done body w = (t, Ok tt, w1) ->
    for_each (done ++ xs) body w = after t (for_each xs body w1).
Proof.
  induction done as [| x done IH]; intros w w1 t Hdone.
  - injection Hdone as <- <-. now rewrite after_nil.
  - cbn [for_each app] in *. unfold bind in *.
    destruct (body x w) as [[tx [[] | e]] wx]; [| discriminate].
    destruct (for_each done body wx) as [[t' o] w''] eqn:Hrest.
    rewrite after_pair in Hdone. injection Hdone as <- -> ->.
    rewrite (IH _ _ _ Hrest), after_after. reflexivity.
Qed.

Lemma for_each_inspect_ops (contents : list Object) :
  forall w : W,
  exists fetched_objs not_fetched,
    contents = (fetched_objs ++ not_fetched)%list
    /\ ops (trace (for_each contents inspect w))
       = map (fun obj => get_object bucket_name (Key obj)) fetched_objs.
Proof.
  induction contents as [| obj contents IH]; intros w.
  - exists [], []. split; reflexivity.
  - cbn [for_each]. unfold bind.
    pose proof (inspect_ops obj w) as Hops.
    destruct (inspect obj w) as [[t [[] | e]] w'].
    + destruct (IH w') as [fs [nf [-> Hrest]]].
      exists (obj :: fs), nf. split; [reflexivity |].
      rewrite trace_after, ops_app. unfold trace in Hops. cbn [fst] in Hops.
      now rewrite Hops, Hrest.
    + exists [obj], contents. split; [reflexivity | exact Hops].
Qed.

(** The handler of the inspector adds no call. *)
Lemma access_handler_ops (body : script unit) (w : W) :
  ops (trace (try_except body access_handler w)) = ops (trace (body w)).
Proof.
  unfold try_except. destruct (body w) as [[t [[] | e]] w']; [reflexivity |].
  destruct e as [c s | | | name]; try reflexivity.
  cbn [access_handler]. rewrite trace_after, ops_app.
  unfold trace. cbn [fst print ops]. now rewrite app_nil_r.
Qed.


(** X5: in a run whose listing is answered, the store calls are the one
    listing call and then retrievals of the listed keys, in the order of
    the listing, each key at most once and none skipped: the objects
    fetched are an initial part of the listing. *)
Theorem fetches_follow_listing (w w' : W) (objects : option (list Object)) :
  respond (list_objects_v2 bucket_name) w = (Ok objects, w') ->
  exists fetched_objs not_fetched,
    get_Contents objects = (fetched_objs ++ not_fetched)%list
    /\ ops (trace (check_s3_data w))
       = list_objects_v2 bucket_name
         :: map (fun obj => get_object bucket_name (Key obj)) fetched_objs.
Proof.
  intros Hlist.
  destruct (for_each_inspect_ops (get_Contents objects) w')
    as [fs [nf [Hsplit Hops]]].
  exists fs, nf. split; [exact Hsplit |].
  rewrite (check_listed _ _ _ Hlist), trace_after, ops_app.
  cbn [app ops]. rewrite ops_print_map. cbn [app]. f_equal.
  unfold inspection_pass. rewrite access_handler_ops.
  unfold bind.
  destruct (for_each (get_Contents objects) inspect w')
    as [[t [[] | e]] w''] eqn:Hloop; unfold trace in *; cbn [fst] in *.
  - unfold after, print, trace. cbn [fst]. rewrite ops_app. cbn [ops].
    now rewrite app_nil_r.
  - exact Hops.
Qed.



(** X7: a [ClientError] on the retrieval of a listed object ends the
    inspection pass there: the objects before it have been reported, its
    own content header and rule have been printed, the failure line with
    the error's text follows the call, the objects after it are not
    fetched, no closing rule is printed, and the run returns normally. *)
Theorem retrieval_error_aborts (w w0 w1 w2 : W) (objects : option (list Object))
    (done rest : list Object) (obj : Object) (t : list event) (c s : string) :
  respond (list_objects_v2 bucket_name) w = (Ok objects, w0) ->
  get_Contents objects = (done ++ obj :: rest)%list ->
  for_each done inspect w0 = (t, Ok tt, w1) ->
  respond (get_object bucket_name (Key obj)) w1 = (Raised (ClientError c s), w2) ->
  check_s3_data w
  = (([Call (list_objects_v2 bucket_name) None; Print files_header]
      ++ map (fun o => Print (file_line o)) (done ++ obj :: rest)
      ++ t
      ++ [Print (content_header (Key obj)); Print rule;
          Call (get_object bucket_name (Key obj)) (Some (ClientError c s));
          Print ("❌ Error accessing S3: " ++ s)])%list, Ok tt, w2).
Proof.
  intros Hlist Hsplit Hdone Hget.
  rewrite (check_listed _ _ _ Hlist), Hsplit.
  unfold inspection_pass.
  assert (Hbody : (for_each (done ++ obj :: rest) inspect ;; print closing_rule) w0
                  = ((t ++ [Print (content_header (Key obj)); Print rule;
                            Call (get_object bucket_name (Key obj))
                              (Some (ClientError c s))])%list,
                     Raised (ClientError c s), w2)).
  { apply bind_raised.
    rewrite (for_each_app_ok _ _ _ _ _ _ Hdone). cbn [for_each].
    rewrite (bind_raised _ _ _ _ _ _ (inspect_fetch_failed _ _ _ _ Hget)).
    reflexivity. }
  rewrite (try_except_caught _ _ _ _ _ _ _ Hbody eq_refl).
  unfold after, trace, outcome, final. cbn [fst snd print].
  now rewrite <- !app_assoc.
Qed.

(** X8: a body that is not valid UTF-8 ends the whole run with
    [UnicodeDecodeError], which no [except] clause of the script names: the
    objects before it have been reported, its content header, rule and
    retrieval are the last events, the objects after it are not fetched,
    and neither a failure line nor the closing rule is printed. *)
Theorem undecodable_body_aborts (w w0 w1 w2 : W) (objects : option (list Object))
    (done rest : list Object) (obj : Object) (t : list event)
    (body : list byte) :
  respond (list_objects_v2 bucket_name) w = (Ok objects, w0) ->
  get_Contents objects = (done ++ obj :: rest)%list ->
  for_each done inspect w0 = (t, Ok tt, w1) ->
  respond (get_object bucket_name (Key obj)) w1 = (Ok body, w2) ->
  decode_utf8 body = None ->
  check_s3_data w
  = (([Call (list_objects_v2 bucket_name) None; Print files_header]
      ++ map (fun o => Print (file_line o)) (done ++ obj :: rest)
      ++ t
      ++ [Print (content_header (Key obj)); Print rule;
          Call (get_object bucket_name (Key obj)) None])%list,
     Raised UnicodeDecodeError, w2).
Proof.
  intros Hlist Hsplit Hdone Hget Hdec.
  rewrite (check_listed _ _ _ Hlist), Hsplit.
  unfold inspection_pass.
  assert (Hbody : (for_each (done ++ obj :: rest) inspect ;; print closing_rule) w0
                  = ((t ++ fetched obj)%list, Raised UnicodeDecodeError, w2)).
  { apply bind_raised.
    rewrite (for_each_app_ok _ _ _ _ _ _ Hdone). cbn [for_each].
    rewrite (bind_raised _ _ _ _ _ _ (inspect_undecodable _ _ _ _ Hget Hdec)).
    reflexivity. }
  rewrite (try_except_passed _ _ _ _ _ _ Hbody eq_refl).
  unfold after, trace, outcome, final, fetched. cbn [fst snd].
  now rewrite <- !app_assoc.
Qed.

(** X10: an exception of [json.loads] other than [JSONDecodeError] (a
    [ValueError] on an integer of more than 4300 digits, a
    [RecursionError] on deep nesting) goes through both [except] clauses
    and ends the whole run: the objects before have been reported, the
    content header, rule and retrieval of the object are the last events,
    the objects after it are not fetched, and neither the not-valid-JSON
    line, a failure line nor the closing rule is printed. *)
Theorem loads_exception_aborts (w w0 w1 w2 : W) (objects : option (list Object))
    (done rest : list Object) (obj : Object) (t : list event)
    (body : list byte) (content : string) (e : exception) :
  respond (list_objects_v2 bucket_name) w = (Ok objects, w0) ->
  get_Contents objects = (done ++ obj :: rest)%list ->
  for_each done inspect w0 = (t, Ok tt, w1) ->
  respond (get_object bucket_name (Key obj)) w1 = (Ok body, w2) ->
  decode_utf8 body = Some content ->
  json_loads content = Raised e ->
  e <> JSONDecodeError ->
  (forall c s, e <> ClientError c s) ->
  check_s3_data w
  = (([Call (list_objects_v2 bucket_name) None; Print files_header]
      ++ map (fun o => Print (file_line o)) (done ++ obj :: rest)
      ++ t
      ++ [Print (content_header (Key obj)); Print rule;
          Call (get_object bucket_name (Key obj)) None])%list,
     Raised e, w2).
Proof.
  intros Hlist Hsplit Hdone Hget Hdec Hload Hjson Hclient.
  rewrite (check_listed _ _ _ Hlist), Hsplit.
  unfold inspection_pass.
  assert (Hbody : (for_each (done ++ obj :: rest) inspect ;; print closing_rule) w0
                  = ((t ++ fetched obj)%list, Raised e, w2)).
  { apply bind_raised.
    rewrite (for_each_app_ok _ _ _ _ _ _ Hdone). cbn [for_each].
    rewrite (bind_raised _ _ _ _ _ _
               (inspect_loads_raised _ _ _ _ _ _ Hget Hdec Hload Hjson)).
    reflexivity. }
  assert (Hpass : access_handler (W := W) e = None).
  { destruct e as [c s | | | name]; try reflexivity.
    now contradiction (Hclient c s). }
  rewrite (try_except_passed _ _ _ _ _ _ Hbody Hpass).
  unfold after, trace, outcome, final, fetched. cbn [fst snd].
  now rewrite <- !app_assoc.
Qed.


End Passes.

(** ** More runs on concrete stores *)

Section OnScenarios.

Import MemStore JsonFragment Examples Scenarios.

(** Credentials that may create the bucket and may not list. *)
Lemma listing_failure_after_creation_witness :
  create_s3_bucket (s3_client := CreateOnly.client) tt
  = ([Call (create_bucket bucket_name) None;
      Print "✅ Successfully created bucket: test-data-lake";
      Call list_buckets (Some (Denying.access_denied "ListBuckets"));
      Print "❌ Error creating bucket: An error occurred (AccessDenied) when calling the ListBuckets operation: Access Denied."],
     Ok tt, tt).
Proof.
  exact (listing_failure_after_creation (s3_client := CreateOnly.client)
           tt tt tt "AccessDenied" _ eq_refl eq_refl).
Defined.

(** The provisioner against an endpoint nobody listens on. *)
Lemma provisioner_passes_other_exceptions_witness :
  outcome (create_s3_bucket (s3_client := Unreachable.client) tt)
  = Raised Unreachable.connection_error
  /\ exists before op,
       trace (create_s3_bucket (s3_client := Unreachable.client) tt)
       = (before ++ [Call op (Some Unreachable.connection_error)])%list
       /\ quiet before.
Proof.
  split; [reflexivity |].
  exact (proj2 (provisioner_passes_other_exceptions
                  (s3_client := Unreachable.client) tt
                  Unreachable.connection_error eq_refl)).
Defined.


(** The two objects of the mixed bucket, fetched in the order listed. *)
Lemma fetches_follow_listing_witness :
  exists fetched_objs not_fetched,
    [a_json; b_txt] = (fetched_objs ++ not_fetched)%list
    /\ ops (trace (check_s3_data (py := python) mixed_store))
       = list_objects_v2 bucket_name
         :: map (fun obj => get_object bucket_name (Key obj)) fetched_objs.
Proof.
  exact (fetches_follow_listing (py := python) mixed_store mixed_store
           (Some [a_json; b_txt]) eq_refl).
Defined.


(** Every object deleted right after the listing: the first retrieval
    fails and the second object is never fetched. *)
Lemma retrieval_error_aborts_witness :
  check_s3_data (s3_client := Racing.client) (py := python) mixed_store
  = ([Call (list_objects_v2 bucket_name) None;
      Print "📋 Files in S3 bucket:";
      Print "  📄 a.json (size: 28 bytes)";
      Print "  📄 b.txt (size: 11 bytes)";
      Print (content_header "a.json"); Print rule;
      Call (get_object bucket_name "a.json") (Some no_such_key);
      Print "❌ Error accessing S3: An error occurred (NoSuchKey) when calling the GetObject operation: The specified key does not exist."],
     Ok tt, empty_bucket_store).
Proof.
  exact (retrieval_error_aborts (s3_client := Racing.client) (py := python)
           mixed_store empty_bucket_store empty_bucket_store empty_bucket_store
           (Some [a_json; b_txt]) [] [b_txt] a_json [] "NoSuchKey" _
           eq_refl eq_refl eq_refl eq_refl).
Defined.

(** A binary object between two texts: the first is reported, the third is
    never fetched. *)
Lemma undecodable_body_aborts_witness :
  check_s3_data (py := python) binary_store
  = ([Call (list_objects_v2 bucket_name) None;
      Print "📋 Files in S3 bucket:";
      Print "  📄 empty.json (size: 2 bytes)";
      Print "  📄 blob.bin (size: 2 bytes)";
      Print "  📄 b.txt (size: 11 bytes)";
      Print (content_header "empty.json"); Print rule;
      Call (get_object bucket_name "empty.json") None;
      Print "📊 Structure: JSON Array";
      Print "📊 Number of records: 0";
      Print "[]";
      Print (content_header "blob.bin"); Print rule;
      Call (get_object bucket_name "blob.bin") None],
     Raised UnicodeDecodeError, binary_store).
Proof.
  exact (undecodable_body_aborts (py := python)
           binary_store binary_store binary_store binary_store
           (Some [empty_json; blob_bin; b_txt]) [empty_json] [b_txt] blob_bin
           [Print (content_header "empty.json"); Print rule;
            Call (get_object bucket_name "empty.json") None;
            Print "📊 Structure: JSON Array";
            Print "📊 Number of records: 0";
            Print "[]"]
           [x68; xff] eq_refl eq_refl eq_refl eq_refl eq_refl).
Defined.

(** The text with the long integer, between an empty array and a plain
    text: the first is reported, the third is never fetched. *)
Lemma loads_exception_aborts_witness :
  check_s3_data (py := python) digits_store
  = ([Call (list_objects_v2 bucket_name) None;
      Print "📋 Files in S3 bucket:";
      Print "  📄 empty.json (size: 2 bytes)";
      Print "  📄 digits.txt (size: 4302 bytes)";
      Print "  📄 b.txt (size: 11 bytes)";
      Print (content_header "empty.json"); Print rule;
      Call (get_object bucket_name "empty.json") None;
      Print "📊 Structure: JSON Array";
      Print "📊 Number of records: 0";
      Print "[]";
      Print (content_header "digits.txt"); Print rule;
      Call (get_object bucket_name "digits.txt") None],
     Raised (OtherException "ValueError"), digits_store).
Proof.
  refine (loads_exception_aborts (py := python)
            digits_store digits_store digits_store digits_store
            (Some [empty_json; digits_txt; b_txt]) [empty_json] [b_txt]
            digits_txt
            [Print (content_header "empty.json"); Print rule;
             Call (get_object bucket_name "empty.json") None;
             Print "📊 Structure: JSON Array";
             Print "📊 Number of records: 0";
             Print "[]"]
            (list_byte_of_string long_number) long_number value_error
            _ _ _ _ _ _ _ _);
    try (vm_compute; reflexivity); discriminate.
Defined.

(** C3, the counterexample: the object [digits.txt] holds 4301 digits and a
    letter, which is not JSON; [json.loads] raises [ValueError] on it, no
    [except] clause names that, and the inspection ends with the exception
    instead of the not-valid-JSON line. *)
Lemma non_json_fallback_fails_on_long_number :
  json_loads (PyRuntime := python) long_number
  = Raised (OtherException "ValueError")
  /\ inspect (py := python) digits_txt digits_store
     = ([Print (content_header "digits.txt"); Print rule;
         Call (get_object bucket_name "digits.txt") None],
        Raised (OtherException "ValueError"), digits_store)
  /\ ~ non_json_fallback_as_stated store client python.
Proof.
  assert (Hload : json_loads (PyRuntime := python) long_number
                  = Raised (OtherException "ValueError"))
    by (vm_compute; reflexivity).
  assert (Hrun : inspect (py := python) digits_txt digits_store
                 = ([Print (content_header "digits.txt"); Print rule;
                     Call (get_object bucket_name "digits.txt") None],
                    Raised (OtherException "ValueError"), digits_store))
    by (vm_compute; reflexivity).
  split; [exact Hload | split; [exact Hrun |]].
  intros Hclaim.
  destruct (Hclaim digits_txt [] digits_store digits_store
              (list_byte_of_string long_number) long_number) as [Hfallback _].
  - vm_compute. reflexivity.
  - vm_compute. reflexivity.
  - intros data Hdata. rewrite Hload in Hdata. discriminate.
  - rewrite Hrun in Hfallback. discriminate.
Qed.



End OnScenarios.
